(** * Debug syscalls of the Magenta kernel (kernel/lib/syscalls/syscalls_debug.cpp)

    A shallow embedding of the debug syscall layer: [sys_debug_write],
    [sys_debug_transfer_handle], [sys_process_read_memory],
    [sys_process_write_memory], [sys_ktrace_write] and
    [sys_thread_read_state], over an explicit kernel state.

    The syscalls are written in a small state monad with early return, one
    line of the model per statement of the C++.  The collaborators the file
    calls but does not define (handle table, address space, user copy,
    storage objects, trace log, thread state reader) are separate
    definitions; every call to one of them is recorded in an event log so
    that "before any lookup" and "no transfer takes place" are statements
    about the log. *)

From Stdlib Require Import ZArith Lia List Bool.
From stdpp Require Import base option list gmap.

Local Open Scope Z_scope.

(** ** Machine integers *)

Definition wrap64 (z : Z) : Z := z mod 2 ^ 64.

(** Little-endian bytes of an [n]-byte unsigned value. *)
Fixpoint le_bytes (n : nat) (v : Z) : list Z :=
  match n with
  | O => []
  | S n' => (v mod 256) :: le_bytes n' (v / 256)
  end.

Fixpoint le_value (bs : list Z) : Z :=
  match bs with
  | [] => 0
  | b :: bs' => b + 256 * le_value bs'
  end.

(** ** Status codes and rights *)

Definition mx_status_t := Z.

(** Modelled from the spec: <err.h> is not part of the sources.  The statuses
    the file returns are distinct negative codes and [NO_ERROR] is zero. *)
Definition NO_ERROR : mx_status_t := 0.
Definition ERR_NO_MEMORY : mx_status_t := -4.
Definition ERR_INVALID_ARGS : mx_status_t := -10.
Definition ERR_BAD_HANDLE : mx_status_t := -11.
Definition ERR_WRONG_TYPE : mx_status_t := -12.
Definition ERR_BUFFER_TOO_SMALL : mx_status_t := -15.
Definition ERR_BAD_STATE : mx_status_t := -20.
Definition ERR_UNAVAILABLE : mx_status_t := -28.
Definition ERR_ACCESS_DENIED : mx_status_t := -30.

(** Modelled from the spec: the rights bits (magenta/types.h) are not part of
    the sources; "a bitmask (e.g., READ, WRITE)", one bit per right. *)
Definition MX_RIGHT_READ : Z := Z.shiftl 1 2.
Definition MX_RIGHT_WRITE : Z := Z.shiftl 1 3.

(** MX_RIGHT_READ | MX_RIGHT_WRITE, the rights asked for at lines 120 and 149. *)
Definition READ_WRITE : Z := Z.lor MX_RIGHT_READ MX_RIGHT_WRITE.

(** Modelled from the spec: the rights check of the handle table ("lookup
    with rights check"): every desired bit is present. *)
Definition magenta_rights_check (actual desired : Z) : bool :=
  Z.land actual desired =? desired.

(** ** Constants of the file (lines 39-41) *)

Definition kMaxDebugWriteSize : Z := 256.
Definition kMaxDebugReadBlock : Z := 64 * 1024 * 1024.
Definition kMaxDebugWriteBlock : Z := 64 * 1024 * 1024.

(** ** User memory of the calling process

    User memory is a finite map from the mapped addresses to a byte and a
    write permission. *)

Record ucell := UCell { u_val : Z; u_writable : bool }.

(** Modelled from the spec: the user-copy primitives (lib/user_copy) are not
    part of the sources; they "fail (rather than fault) on bad addresses".
    A copy of [n] bytes from user memory fails when an address of the range
    is not mapped. *)
Fixpoint copy_from_user (m : gmap Z ucell) (ptr : Z) (n : nat) : option (list Z) :=
  match n with
  | O => Some []
  | S n' =>
      match m !! ptr with
      | Some c =>
          match copy_from_user m (ptr + 1) n' with
          | Some bs => Some (u_val c :: bs)
          | None => None
          end
      | None => None
      end
  end.

(** Modelled from the spec: the copy to user memory (lib/user_copy, not part
    of the sources) fails when an address of the range is not mapped or is
    read-only.  Neither the callers, which test the status only, nor the
    specification say what a failed copy has stored before it failed: that
    the model stores nothing then is a choice of the model. *)
Fixpoint copy_to_user (m : gmap Z ucell) (ptr : Z) (bs : list Z) : option (gmap Z ucell) :=
  match bs with
  | [] => Some m
  | b :: bs' =>
      match m !! ptr with
      | Some c =>
          if u_writable c
          then copy_to_user (<[ptr := UCell b true]> m) (ptr + 1) bs'
          else None
      | None => None
      end
  end.

(** The [n] bytes at [ptr] are mapped and writable. *)
Fixpoint user_writable (m : gmap Z ucell) (ptr : Z) (n : nat) : bool :=
  match n with
  | O => true
  | S n' =>
      match m !! ptr with
      | Some c => u_writable c && user_writable m (ptr + 1) n'
      | None => false
      end
  end.

(** ** Kernel objects *)

(** The kernel objects a handle can refer to, by kernel object id. *)
Inductive Dispatcher :=
| ProcessDisp (koid : Z)
| ThreadDisp (koid : Z)
| ResourceDisp (koid : Z)
| OtherDisp (koid : Z).

Inductive DispatcherType := TProcess | TThread | TResource.

Definition DownCastDispatcher (ty : DispatcherType) (d : Dispatcher) : option Z :=
  match ty, d with
  | TProcess, ProcessDisp k => Some k
  | TThread, ThreadDisp k => Some k
  | TResource, ResourceDisp k => Some k
  | _, _ => None
  end.

Record Handle := MkHandle { h_dispatcher : Dispatcher; h_rights : Z }.

(** A mapped region: base address, length, offset into the backing object and
    a reference (by id) to the backing storage object, if any. *)
Record VmRegion := MkRegion {
  r_base : Z;
  r_size : Z;
  r_object_offset : Z;
  r_vmo : option Z
}.

Record ProcessDispatcher := MkProcess {
  p_handles : gmap Z Handle;
  p_aspace : option (list VmRegion)
}.

(** Modelled from the spec: VmAspace::FindRegion (kernel/vm) is not part of
    the sources; it "finds the mapped region containing" the address. *)
Definition region_contains (vaddr : Z) (r : VmRegion) : bool :=
  (r_base r <=? vaddr) && (vaddr <? r_base r + r_size r).

Definition FindRegion (aspace : list VmRegion) (vaddr : Z) : option VmRegion :=
  List.find (region_contains vaddr) aspace.

(** A thread exposes its state through a reader: given the state kind and the
    capacity of the buffer it returns a status, the bytes it stored at the
    start of the buffer and the new value of the length. *)
Record UserThread := MkThread {
  t_ReadState : Z → Z → mx_status_t * list Z * Z
}.

(** Modelled from the spec: the trace log (lib/ktrace) is not part of the
    sources.  It holds the probe slots written so far, each keyed by its tag
    and holding two 32-bit words, and the number of slots that can still be
    opened (zero when the log is full or disabled). *)
Record KSlot := MkSlot { s_tag : Z; s_arg0 : Z; s_arg1 : Z }.

Record KTrace := MkKTrace { kt_free : nat; kt_slots : list KSlot }.

(** Modelled from the spec: ktrace_open (lib/ktrace) "opens a fixed-width
    probe slot keyed by the event id"; none is available when the log is full
    or disabled.  The slot opened is the next one of the log, its words not
    yet written. *)
Definition ktrace_open_slot (tag : Z) (kt : KTrace) : option (nat * KTrace) :=
  match kt_free kt with
  | O => None
  | S n => Some (length (kt_slots kt), MkKTrace n (kt_slots kt ++ [MkSlot tag 0 0]))
  end.

(** ** Storage objects

    The interface of a storage object (VmObject::ReadUser and
    VmObject::WriteUser, kernel/vm/vm_object.h): a read takes the object, the
    caller's user memory, the user pointer, the offset and the length and
    returns a status, the byte count and the user memory after the copy; a
    write returns a status, the byte count and the object after the copy. *)
Class VmObject (V : Type) := {
  ReadUser : V → gmap Z ucell → Z → Z → Z → mx_status_t * Z * gmap Z ucell;
  WriteUser : V → gmap Z ucell → Z → Z → Z → mx_status_t * Z * V
}.

(** ** Events: the calls the syscalls make to their collaborators *)

Inductive Event :=
| EvGetDispatcher (handle rights : Z) (status : mx_status_t)
| EvAspace (process : Z)
| EvFindRegion (process vaddr : Z)
| EvRegionVmo (process vaddr : Z)
| EvReadUser (vmo buffer offset len : Z) (status : mx_status_t) (read : Z)
| EvWriteUser (vmo buffer offset len : Z) (status : mx_status_t) (written : Z)
| EvCopyFromUser (ptr len : Z) (ok : bool)
| EvCopyToUser (ptr : Z) (data : list Z) (ok : bool)
| EvRemoveHandle (handle : Z) (ok : bool)
| EvAddHandle (process value : Z)
| EvAlloc (size : Z) (ok : bool)
| EvReadState (thread kind len : Z) (status : mx_status_t) (actual : Z)
| EvKtraceOpen (tag : Z) (ok : bool)
| EvKtraceStore (slot : nat) (arg0 arg1 : Z).

(** ** The kernel state and the syscall monad *)

Section Syscalls.

Context {V : Type} `{VmObject V}.

(** MX_MAX_THREAD_STATE_SIZE (magenta/syscalls/debug.h) and TAG_PROBE_24
    (lib/ktrace.h) are macros of headers that are not part of the sources. *)
Variable MX_MAX_THREAD_STATE_SIZE : Z.
Variable TAG_PROBE_24 : Z → Z.

(** The temporary buffer of sys_thread_read_state comes from the heap
    uninitialised (line 289), and line 306 copies as many bytes as the reader
    reports, which may be more than the buffer holds.  [uninitialised i] is
    the byte found at offset [i] from the start of the buffer where the
    reader stored nothing, inside the buffer or past its end: a parameter. *)
Variable uninitialised : nat → Z.

Definition kMaxThreadStateSize : Z := MX_MAX_THREAD_STATE_SIZE.

(** Processes, threads and storage objects are reference counted: a
    reference always resolves, so the stores are total.  [k_heap] is the
    number of bytes the kernel heap can still hand out.  [k_umem] is the
    user memory of the caller as the user-copy primitives see it.  The model
    keeps it apart from the storage objects of [k_vmos]: it describes the
    caller's memory and the objects reached through handles only as long as
    these objects are not mapped in the caller's own address space (see
    [maps_object]). *)
Record Kernel := MkKernel {
  k_current : Z;
  k_processes : Z → ProcessDispatcher;
  k_threads : Z → UserThread;
  k_vmos : Z → V;
  k_umem : gmap Z ucell;
  k_heap : Z;
  k_console : list Z;
  k_ktrace : KTrace;
  k_log : list Event
}.

Definition set_processes (f : Z → ProcessDispatcher) (k : Kernel) : Kernel :=
  MkKernel (k_current k) f (k_threads k) (k_vmos k) (k_umem k) (k_heap k)
           (k_console k) (k_ktrace k) (k_log k).
Definition set_vmos (f : Z → V) (k : Kernel) : Kernel :=
  MkKernel (k_current k) (k_processes k) (k_threads k) f (k_umem k) (k_heap k)
           (k_console k) (k_ktrace k) (k_log k).
Definition set_umem (m : gmap Z ucell) (k : Kernel) : Kernel :=
  MkKernel (k_current k) (k_processes k) (k_threads k) (k_vmos k) m (k_heap k)
           (k_console k) (k_ktrace k) (k_log k).
Definition set_console (c : list Z) (k : Kernel) : Kernel :=
  MkKernel (k_current k) (k_processes k) (k_threads k) (k_vmos k) (k_umem k) (k_heap k)
           c (k_ktrace k) (k_log k).
Definition set_ktrace (t : KTrace) (k : Kernel) : Kernel :=
  MkKernel (k_current k) (k_processes k) (k_threads k) (k_vmos k) (k_umem k) (k_heap k)
           (k_console k) t (k_log k).
Definition set_log (l : list Event) (k : Kernel) : Kernel :=
  MkKernel (k_current k) (k_processes k) (k_threads k) (k_vmos k) (k_umem k) (k_heap k)
           (k_console k) (k_ktrace k) l.

Definition record (e : Event) (k : Kernel) : Kernel := set_log (k_log k ++ [e]) k.

Definition records (es : list Event) (k : Kernel) : Kernel :=
  foldl (λ k e, record e k) k es.

Definition update {A : Type} (f : Z → A) (i : Z) (a : A) : Z → A :=
  λ j, if j =? i then a else f j.

(** A computation either has returned from the syscall with a value ([inl])
    or goes on with an intermediate result ([inr]). *)
Definition Sys (A : Type) : Type := Kernel → (Z + A) * Kernel.

Definition ret {A : Type} (a : A) : Sys A := λ k, (inr a, k).
Definition Return {A : Type} (r : Z) : Sys A := λ k, (inl r, k).
Definition bind {A B : Type} (m : Sys A) (f : A → Sys B) : Sys B :=
  λ k, match m k with
       | (inl r, k') => (inl r, k')
       | (inr a, k') => f a k'
       end.
Definition when (b : bool) (m : Sys unit) : Sys unit := if b then m else ret tt.

Definition run (m : Sys Z) (k : Kernel) : Z * Kernel :=
  match m k with
  | (inl r, k') => (r, k')
  | (inr r, k') => (r, k')
  end.

#[local] Instance Sys_ret : MRet Sys := @ret.
#[local] Instance Sys_bind : MBind Sys := λ A B f m, bind m f.

(** *** Collaborators *)

Definition GetCurrent : Sys Z := λ k, (inr (k_current k), k).

(** Modelled from the spec: ProcessDispatcher::GetDispatcher
    (magenta/process_dispatcher.h) is not part of the sources.  It resolves
    the handle value in the handle table of process [up], down-casts the
    object to the expected kind and checks the rights.  On failure the
    out-parameter stays null (0 here). *)
Definition get_dispatcher (k : Kernel) (up : Z) (ty : DispatcherType)
    (handle_value check_rights : Z) : mx_status_t * Z :=
  match p_handles (k_processes k up) !! handle_value with
  | None => (ERR_BAD_HANDLE, 0)
  | Some h =>
      match DownCastDispatcher ty (h_dispatcher h) with
      | None => (ERR_WRONG_TYPE, 0)
      | Some koid =>
          if magenta_rights_check (h_rights h) check_rights
          then (NO_ERROR, koid)
          else (ERR_ACCESS_DENIED, 0)
      end
  end.

Definition GetDispatcher (up : Z) (ty : DispatcherType)
    (handle_value check_rights : Z) : Sys (mx_status_t * Z) :=
  λ k, let r := get_dispatcher k up ty handle_value check_rights in
       (inr r, record (EvGetDispatcher handle_value check_rights r.1) k).

(** Modelled from the spec: validate_resource_handle (syscalls_priv.h) is
    not part of the sources; it checks that the handle resolves in the
    caller's table to a resource, with no rights required. *)
Definition validate_resource_handle (handle : Z) : Sys mx_status_t :=
  up ← GetCurrent;
  '(status, _) ← GetDispatcher up TResource handle 0;
  ret status.

Definition aspace (process : Z) : Sys (option (list VmRegion)) :=
  λ k, (inr (p_aspace (k_processes k process)), record (EvAspace process) k).

Definition aspace_FindRegion (process : Z) (a : list VmRegion) (vaddr : Z)
    : Sys (option VmRegion) :=
  λ k, (inr (FindRegion a vaddr), record (EvFindRegion process vaddr) k).

Definition region_vmo (process vaddr : Z) (r : VmRegion) : Sys (option Z) :=
  λ k, (inr (r_vmo r), record (EvRegionVmo process vaddr) k).

Definition vmo_ReadUser (vmo buffer offset len : Z) : Sys (mx_status_t * Z) :=
  λ k, match ReadUser (k_vmos k vmo) (k_umem k) buffer offset len with
       | (st, n, m') =>
           (inr (st, n), record (EvReadUser vmo buffer offset len st n) (set_umem m' k))
       end.

Definition vmo_WriteUser (vmo buffer offset len : Z) : Sys (mx_status_t * Z) :=
  λ k, match WriteUser (k_vmos k vmo) (k_umem k) buffer offset len with
       | (st, n, v') =>
           (inr (st, n),
            record (EvWriteUser vmo buffer offset len st n)
                   (set_vmos (update (k_vmos k) vmo v') k))
       end.

(** user_ptr<T>::copy_to_user / copy_array_to_user: the status of the copy. *)
Definition user_copy_to (ptr : Z) (data : list Z) : Sys mx_status_t :=
  λ k, match copy_to_user (k_umem k) ptr data with
       | Some m' => (inr NO_ERROR, record (EvCopyToUser ptr data true) (set_umem m' k))
       | None => (inr ERR_INVALID_ARGS, record (EvCopyToUser ptr data false) k)
       end.

(** user_ptr<T>::copy_from_user / magenta_copy_from_user: the bytes read, or
    [None] when the copy fails. *)
Definition user_copy_from (ptr len : Z) : Sys (option (list Z)) :=
  λ k, match copy_from_user (k_umem k) ptr (Z.to_nat len) with
       | Some bs => (inr (Some bs), record (EvCopyFromUser ptr len true) k)
       | None => (inr None, record (EvCopyFromUser ptr len false) k)
       end.

(** Modelled from the spec: ProcessDispatcher::RemoveHandle is not part of
    the sources; it takes the handle out of the table of [up] and returns it,
    or returns null when the value is not in the table. *)
Definition RemoveHandle (up handle_value : Z) : Sys (option Handle) :=
  λ k, match p_handles (k_processes k up) !! handle_value with
       | Some h =>
           let p := k_processes k up in
           (inr (Some h),
            record (EvRemoveHandle handle_value true)
              (set_processes
                 (update (k_processes k) up
                    (MkProcess (delete handle_value (p_handles p)) (p_aspace p))) k))
       | None => (inr None, record (EvRemoveHandle handle_value false) k)
       end.

(** Modelled from the spec: the value of a handle in the target's table is
    "a (possibly different) handle value there": here the first value above
    those in use. *)
Definition fresh_value (t : gmap Z Handle) : Z :=
  1 + map_fold (λ v _ acc, Z.max v acc) 0 t.

(** Modelled from the spec: ProcessDispatcher::MapHandleToValue is not part
    of the sources. *)
Definition MapHandleToValue (process : Z) (h : Handle) : Sys Z :=
  λ k, (inr (fresh_value (p_handles (k_processes k process))), k).

(** Modelled from the spec: ProcessDispatcher::AddHandle is not part of the
    sources; it inserts the handle in the table of [process]. *)
Definition AddHandle (process : Z) (h : Handle) : Sys unit :=
  λ k, let p := k_processes k process in
       let v := fresh_value (p_handles p) in
       (inr tt,
        record (EvAddHandle process v)
          (set_processes
             (update (k_processes k) process
                (MkProcess (<[v := h]> (p_handles p)) (p_aspace p))) k)).

(** platform_dputc: one character to the console. *)
Definition platform_dputc (c : Z) : Sys unit :=
  λ k, (inr tt, set_console (k_console k ++ [c]) k).

(** Modelled from the spec: a fallible allocation of [size] bytes; it fails
    when the heap cannot provide them.  The buffer is released on return. *)
Definition alloc_array (size : Z) : Sys bool :=
  λ k, let ok := size <=? k_heap k in (inr ok, record (EvAlloc size ok) k).

Definition thread_ReadState (thread state_kind buffer_len : Z)
    : Sys (mx_status_t * list Z * Z) :=
  λ k, match t_ReadState (k_threads k thread) state_kind buffer_len with
       | (st, bytes, n) =>
           (inr (st, bytes, n), record (EvReadState thread state_kind buffer_len st n) k)
       end.

(** The [n] bytes found at the start of the temporary buffer after the reader
    stored [stored] there: the bytes the reader stored, followed by whatever
    the memory held. *)
Definition array_get (stored : list Z) (n : Z) : list Z :=
  take (Z.to_nat n)
       (stored ++ (uninitialised <$> seq (length stored) (Z.to_nat n))).

Definition ktrace_open (tag : Z) : Sys (option nat) :=
  λ k, match ktrace_open_slot tag (k_ktrace k) with
       | Some (i, kt) => (inr (Some i), record (EvKtraceOpen tag true) (set_ktrace kt k))
       | None => (inr None, record (EvKtraceOpen tag false) k)
       end.

(** args[0] = arg0; args[1] = arg1; on the slot that was opened. *)
Definition slot_store (i : nat) (arg0 arg1 : Z) : Sys unit :=
  λ k, let kt := k_ktrace k in
       (inr tt,
        record (EvKtraceStore i arg0 arg1)
          (set_ktrace
             (MkKTrace (kt_free kt)
                (alter (λ s, MkSlot (s_tag s) arg0 arg1) i (kt_slots kt)))
             k)).

(** *** The syscalls *)

Fixpoint dputc_loop (buf : list Z) : Sys unit :=
  match buf with
  | [] => ret tt
  | c :: rest => platform_dputc c;; dputc_loop rest
  end.

(** sys_debug_write, lines 78-92. *)
Definition sys_debug_write (ptr len : Z) : Sys Z :=
  let len := if kMaxDebugWriteSize <? len then kMaxDebugWriteSize else len in
  r ← user_copy_from ptr len;
  match r with
  | None => Return ERR_INVALID_ARGS
  | Some buf =>
      dputc_loop buf;;
      ret len
  end.

(** sys_debug_transfer_handle, lines 115-135. *)
Definition sys_debug_transfer_handle (proc src_handle : Z) : Sys Z :=
  up ← GetCurrent;
  '(status, process) ← GetDispatcher up TProcess proc (Z.lor MX_RIGHT_READ MX_RIGHT_WRITE);
  when (negb (status =? NO_ERROR)) (Return status);;
  (* Disallow this call on self. *)
  when (process =? up) (Return ERR_INVALID_ARGS);;
  handle ← RemoveHandle up src_handle;
  match handle with
  | None => Return ERR_BAD_HANDLE
  | Some handle =>
      dest_hv ← MapHandleToValue process handle;
      AddHandle process handle;;
      ret dest_hv
  end.

(** sys_process_read_memory, lines 137-175. *)
Definition sys_process_read_memory (proc vaddr buffer len actual : Z) : Sys Z :=
  when (buffer =? 0) (Return ERR_INVALID_ARGS);;
  when ((len =? 0) || (kMaxDebugReadBlock <? len)) (Return ERR_INVALID_ARGS);;
  up ← GetCurrent;
  '(status, process) ← GetDispatcher up TProcess proc (Z.lor MX_RIGHT_READ MX_RIGHT_WRITE);
  when (negb (status =? NO_ERROR)) (Return status);;
  a ← aspace process;
  match a with
  | None => Return ERR_BAD_STATE
  | Some a =>
      region ← aspace_FindRegion process a vaddr;
      match region with
      | None => Return ERR_NO_MEMORY
      | Some region =>
          vmo ← region_vmo process vaddr region;
          match vmo with
          | None => Return ERR_NO_MEMORY
          | Some vmo =>
              let offset := wrap64 (wrap64 (vaddr - r_base region) + r_object_offset region) in
              '(st, read) ← vmo_ReadUser vmo buffer offset len;
              when (st =? NO_ERROR)
                (c ← user_copy_to actual (le_bytes 8 read);
                 when (negb (c =? NO_ERROR)) (Return ERR_INVALID_ARGS));;
              ret st
          end
      end
  end.

(** sys_process_write_memory, lines 177-214. *)
Definition sys_process_write_memory (proc vaddr buffer len actual : Z) : Sys Z :=
  when (buffer =? 0) (Return ERR_INVALID_ARGS);;
  when ((len =? 0) || (kMaxDebugWriteBlock <? len)) (Return ERR_INVALID_ARGS);;
  up ← GetCurrent;
  '(status, process) ← GetDispatcher up TProcess proc MX_RIGHT_WRITE;
  when (negb (status =? NO_ERROR)) (Return status);;
  a ← aspace process;
  match a with
  | None => Return ERR_BAD_STATE
  | Some a =>
      region ← aspace_FindRegion process a vaddr;
      match region with
      | None => Return ERR_NO_MEMORY
      | Some region =>
          vmo ← region_vmo process vaddr region;
          match vmo with
          | None => Return ERR_NO_MEMORY
          | Some vmo =>
              let offset := wrap64 (wrap64 (vaddr - r_base region) + r_object_offset region) in
              '(st, written) ← vmo_WriteUser vmo buffer offset len;
              when (st =? NO_ERROR)
                (c ← user_copy_to actual (le_bytes 8 written);
                 when (negb (c =? NO_ERROR)) (Return ERR_INVALID_ARGS));;
              ret st
          end
      end
  end.

(** sys_ktrace_write, lines 246-266. *)
Definition sys_ktrace_write (handle event_id arg0 arg1 : Z) : Sys Z :=
  status ← validate_resource_handle handle;
  when (status <? 0) (Return status);;
  when (0x7FF <? event_id) (Return ERR_INVALID_ARGS);;
  args ← ktrace_open (TAG_PROBE_24 event_id);
  match args with
  | None =>
      (* There is not a single reason for failure. Assume it reached the end. *)
      Return ERR_UNAVAILABLE
  | Some args =>
      slot_store args arg0 arg1;;
      ret NO_ERROR
  end.

(** sys_thread_read_state, lines 268-311. *)
Definition sys_thread_read_state (handle state_kind _buffer_ptr _buffer_len : Z) : Sys Z :=
  up ← GetCurrent;
  '(status, thread) ← GetDispatcher up TThread handle MX_RIGHT_READ;
  when (negb (status =? NO_ERROR)) (Return status);;
  r ← user_copy_from _buffer_len 4;
  match r with
  | None => Return ERR_INVALID_ARGS
  | Some word =>
      let buffer_len := le_value word in
      (* avoid malloc'ing insane amounts *)
      when (kMaxThreadStateSize <? buffer_len) (Return ERR_INVALID_ARGS);;
      ok ← alloc_array buffer_len;
      when (negb ok) (Return ERR_NO_MEMORY);;
      '(status, bytes, buffer_len) ← thread_ReadState thread state_kind buffer_len;
      (* Always set the actual size so the caller can provide larger buffers. *)
      when ((status =? NO_ERROR) || (status =? ERR_BUFFER_TOO_SMALL))
        (c ← user_copy_to _buffer_len (le_bytes 4 buffer_len);
         when (negb (c =? NO_ERROR)) (Return ERR_INVALID_ARGS));;
      when (negb (status =? NO_ERROR)) (Return status);;
      status ← user_copy_to _buffer_ptr (array_get bytes buffer_len);
      when (negb (status =? NO_ERROR)) (Return ERR_INVALID_ARGS);;
      ret NO_ERROR
  end.

End Syscalls.

Arguments Kernel V : clear implicits.

(** ** A storage object as a sequence of bytes *)

(** Modelled from the spec: the transfer of a storage object is "bounded":
    it is trimmed to the end of the object ("a short read at the end of the
    object"). *)
Definition trim_range (size offset len : Z) : Z :=
  Z.max 0 (Z.min len (size - offset)).

(** Modelled from the spec: VmObject::ReadUser (kernel/vm) is not part of
    the sources.  A storage object is "an addressable byte container
    supporting bounded read/write at an offset": the bytes of the trimmed
    range are copied to the caller's buffer; a failed user copy fails the
    transfer with no byte counted. *)
Definition bytes_ReadUser (v : list Z) (m : gmap Z ucell) (ptr offset len : Z)
    : mx_status_t * Z * gmap Z ucell :=
  let n := trim_range (Z.of_nat (length v)) offset len in
  match copy_to_user m ptr (take (Z.to_nat n) (drop (Z.to_nat offset) v)) with
  | Some m' => (NO_ERROR, n, m')
  | None => (ERR_INVALID_ARGS, 0, m)
  end.

(** Modelled from the spec: VmObject::WriteUser (kernel/vm) is not part of
    the sources.  The bytes of the caller's buffer replace those of the
    trimmed range; a failed user copy fails the transfer and leaves the
    object as it was. *)
Definition bytes_WriteUser (v : list Z) (m : gmap Z ucell) (ptr offset len : Z)
    : mx_status_t * Z * list Z :=
  let n := trim_range (Z.of_nat (length v)) offset len in
  match copy_from_user m ptr (Z.to_nat n) with
  | Some bs =>
      (NO_ERROR, n, take (Z.to_nat offset) v ++ bs ++ drop (Z.to_nat (offset + n)) v)
  | None => (ERR_INVALID_ARGS, 0, v)
  end.

#[export] Instance ByteVmo : VmObject (list Z) := {
  ReadUser := bytes_ReadUser;
  WriteUser := bytes_WriteUser
}.

(** ** A concrete system

    Process 1 is the caller, process 2 a live target with one region at
    0x1000 backed by storage object 7, process 3 a target that was torn
    down.  User memory of the caller is mapped from 0x100 to 0x13f, the
    bytes from 0x130 on read-only. *)

Definition user_range (ptr : Z) (vals : list Z) (writable : bool) : list (Z * ucell) :=
  imap (λ i b, (ptr + Z.of_nat i, UCell b writable)) vals.

Definition demo_umem : gmap Z ucell :=
  list_to_map (user_range 0x100 [171; 172; 173; 174; 175; 176; 177; 178] true
               ++ user_range 0x108 (replicate 40 0) true
               ++ user_range 0x130 [8; 0; 0; 0] false
               ++ user_range 0x134 (replicate 12 0) false).

Definition demo_region : VmRegion := MkRegion 0x1000 16 0 (Some 7).

Definition demo_caller : ProcessDispatcher :=
  MkProcess
    (list_to_map
       [(10, MkHandle (ProcessDisp 2) (Z.lor MX_RIGHT_READ MX_RIGHT_WRITE));
        (11, MkHandle (ProcessDisp 2) MX_RIGHT_WRITE);
        (12, MkHandle (ProcessDisp 1) (Z.lor MX_RIGHT_READ MX_RIGHT_WRITE));
        (13, MkHandle (ProcessDisp 3) (Z.lor MX_RIGHT_READ MX_RIGHT_WRITE));
        (14, MkHandle (ProcessDisp 4) (Z.lor MX_RIGHT_READ MX_RIGHT_WRITE));
        (20, MkHandle (ThreadDisp 5) MX_RIGHT_READ);
        (30, MkHandle (ResourceDisp 6) 0)])
    (Some []).

Definition demo_processes (koid : Z) : ProcessDispatcher :=
  if koid =? 1 then demo_caller
  else if koid =? 2 then MkProcess ∅ (Some [demo_region])
  else if koid =? 4 then MkProcess ∅ (Some [MkRegion 0x2000 16 0 None])
  else MkProcess ∅ None.

(** A thread whose state is the four bytes 1, 2, 3, 4. *)
Definition demo_reader (kind capacity : Z) : mx_status_t * list Z * Z :=
  if capacity <? 4 then (ERR_BUFFER_TOO_SMALL, [], 4) else (NO_ERROR, [1; 2; 3; 4], 4).

Definition demo_kernel : Kernel (list Z) :=
  MkKernel 1 demo_processes (λ _, MkThread demo_reader) (λ _, replicate 16 0)
           demo_umem 4096 [] (MkKTrace 1 []) [].

(** The tag of a probe: event [n] in the probe group, 24-byte record. *)
Definition demo_tag (n : Z) : Z :=
  Z.lor (Z.shiftl 0x100 20) (Z.lor (Z.shiftl (Z.lor n 0x800) 8) 3).

(** A caller whose user memory holds a read-only text of 300 bytes at
    0x4000. *)
Definition demo_text : list Z := (λ i, Z.of_nat i mod 251) <$> seq 0 300.

Definition console_kernel : Kernel (list Z) :=
  MkKernel 1 demo_processes (λ _, MkThread demo_reader) (λ _, replicate 16 0)
           (list_to_map (user_range 0x4000 demo_text false)) 4096 [] (MkKTrace 0 []) [].

(** Scenario 1 of the specification: a region at 0x1000 of 4096 bytes backed
    by an object of 4096 bytes at offset 0; the caller holds 4096 bytes of
    0xAB at 0x10000 and a buffer of 4096 bytes at 0x20000. *)
Definition page_kernel : Kernel (list Z) :=
  MkKernel 1
    (λ koid, if koid =? 1
             then MkProcess {[ 10 := MkHandle (ProcessDisp 2) READ_WRITE ]} (Some [])
             else MkProcess ∅ (Some [MkRegion 0x1000 4096 0 (Some 7)]))
    (λ _, MkThread demo_reader) (λ _, replicate 4096 0)
    (list_to_map (user_range 0x10000 (replicate 4096 0xAB) false
                  ++ user_range 0x20000 (replicate 4096 0) true
                  ++ user_range 0x30000 (replicate 16 0) true))
    4096 [] (MkKTrace 0 []) [].

(** ** Auxiliary definitions for the statements *)

(** The offset into the storage object (lines 165 and 204). *)
Definition object_offset_of (vaddr : Z) (region : VmRegion) : Z :=
  wrap64 (wrap64 (vaddr - r_base region) + r_object_offset region).

(** After the transfer: the copy of the byte count to the out-parameter. *)
Definition finish_transfer (st n actual : Z) {V : Type} (k1 : Kernel V) : Z * Kernel V :=
  if st =? NO_ERROR then
    match copy_to_user (k_umem k1) actual (le_bytes 8 n) with
    | Some m => (NO_ERROR, record (EvCopyToUser actual (le_bytes 8 n) true) (set_umem m k1))
    | None => (ERR_INVALID_ARGS, record (EvCopyToUser actual (le_bytes 8 n) false) k1)
    end
  else (st, k1).

(** The address space of process [p] maps storage object [vmo]. *)
Definition maps_object (p : ProcessDispatcher) (vmo : Z) : bool :=
  match p_aspace p with
  | Some a =>
      existsb (λ r, match r_vmo r with Some v => v =? vmo | None => false end) a
  | None => false
  end.

(** The event is a copy to user memory made by a syscall itself; the event is
    a transfer of a storage object. *)
Definition is_copy_to_user (e : Event) : bool :=
  match e with EvCopyToUser _ _ _ => true | _ => false end.

Definition is_transfer (e : Event) : bool :=
  match e with EvReadUser _ _ _ _ _ _ | EvWriteUser _ _ _ _ _ _ => true | _ => false end.

(** No event of [es] is a transfer of a storage object or a copy to user
    memory. *)
Definition before_transfer (es : list Event) : bool :=
  forallb (λ e, negb (is_transfer e || is_copy_to_user e)) es.

(** The events of a memory syscall up to the transfer, when it reaches it. *)
Definition resolved_events (proc process vaddr rights : Z) : list Event :=
  [EvGetDispatcher proc rights NO_ERROR; EvAspace process;
   EvFindRegion process vaddr; EvRegionVmo process vaddr].

(** The events of [sys_thread_read_state] up to and including the state
    reader, when the call reaches it. *)
Definition read_state_events (handle _buffer_len : Z) (word : list Z)
    (thread state_kind : Z) (st : mx_status_t) (n : Z) : list Event :=
  [EvGetDispatcher handle MX_RIGHT_READ NO_ERROR; EvCopyFromUser _buffer_len 4 true;
   EvAlloc (le_value word) true; EvReadState thread state_kind (le_value word) st n].

(** ** The other syscalls of the file *)

(** The string a callee sees in a character array: the characters before the
    first NUL. *)
Fixpoint c_str (buf : list Z) : list Z :=
  match buf with
  | [] => []
  | c :: rest => if c =? 0 then [] else c :: c_str rest
  end.

(** The byte sys_debug_read stores for the character [c]: a carriage return
    becomes a newline, then static_cast<uint8_t> (lines 69-71). *)
Definition stored_char (c : Z) : Z := (if c =? 13 then 10 else c) mod 256.

(** static_cast<int> of a pointer difference (line 75). *)
Definition to_int32 (z : Z) : Z := (z + 2 ^ 31) mod 2 ^ 32 - 2 ^ 31.

Section OtherSyscalls.

Context {V : Type} `{VmObject V}.

(** The script runner (lib/console), the trace subsystem (lib/ktrace), the
    state writer of a thread and the character source of the console are not
    part of the sources: they are parameters.  [getchar i] is the result of
    the [i]-th call of getchar.  KTRACE_ACTION_NEW_PROBE, MX_MAX_NAME_LEN and
    MX_MAX_THREAD_STATE_SIZE are macros of headers that are not part of the
    sources. *)
Variable console_run_script : list Z → Kernel V → mx_status_t * Kernel V.
Variable ktrace_read_user : Z → Z → Z → Kernel V → Z * Kernel V.
Variable ktrace_control : Z → Z → option (list Z) → Kernel V → mx_status_t * Kernel V.
Variable WriteState : UserThread → Z → list Z → Z → bool → mx_status_t * UserThread.
Variable getchar : nat → Z.
Variable KTRACE_ACTION_NEW_PROBE : Z.
Variable MX_MAX_NAME_LEN : Z.
Variable MX_MAX_THREAD_STATE_SIZE : Z.

#[local] Instance OtherSys_ret : MRet (@Sys V) := @ret V.
#[local] Instance OtherSys_bind : MBind (@Sys V) := λ A B f m, bind m f.

Definition set_threads (f : Z → UserThread) (k : Kernel V) : Kernel V :=
  MkKernel (k_current k) (k_processes k) f (k_vmos k) (k_umem k) (k_heap k)
           (k_console k) (k_ktrace k) (k_log k).

Definition run_script (script : list Z) : Sys Z :=
  λ k, let '(st, k') := console_run_script script k in (inr st, k').

Definition trace_read_user (ptr off len : Z) : Sys Z :=
  λ k, let '(n, k') := ktrace_read_user ptr off len k in (inr n, k').

Definition trace_control (action options : Z) (name : option (list Z)) : Sys Z :=
  λ k, let '(st, k') := ktrace_control action options name k in (inr st, k').

Definition thread_WriteState (thread state_kind : Z) (bytes : list Z) (buffer_len : Z)
    (priv : bool) : Sys mx_status_t :=
  λ k, let '(st, t') := WriteState (k_threads k thread) state_kind bytes buffer_len priv in
       (inr st, set_threads (update (k_threads k) thread t') k).

(** The loop of sys_debug_read, lines 64-73, for at most [n] characters:
    the user pointer and the number of getchar calls made so far go in and
    come out. *)
Fixpoint debug_read_loop (n : nat) (uptr : Z) (pos : nat) (k : Kernel V)
    : Z * nat * Kernel V :=
  match n with
  | O => (uptr, pos, k)
  | S n' =>
      let c := getchar pos in
      if c <? 0 then (uptr, S pos, k)
      else
        let c := if c =? 13 then 10 else c in
        match user_copy_to uptr [c mod 256] k with
        | (inr st, k') =>
            if negb (st =? NO_ERROR) then (uptr, S pos, k')
            else debug_read_loop n' (uptr + 1) (S pos) k'
        | (inl _, k') => (uptr, S pos, k')
        end
  end.

(** sys_debug_read, lines 49-76: the value returned, the number of getchar
    calls made so far and the kernel state. *)
Definition sys_debug_read (handle ptr len : Z) (pos : nat) (k : Kernel V)
    : Z * nat * Kernel V :=
  match validate_resource_handle handle k with
  | (inl r, k1) => (r, pos, k1)
  | (inr status, k1) =>
      if status <? 0 then (status, pos, k1)
      else if len =? 0 then (0, pos, k1)
      else
        let '(uptr, pos', k2) := debug_read_loop (Z.to_nat len) ptr pos k1 in
        (to_int32 (uptr - ptr), pos', k2)
  end.

(** sys_debug_send_command, lines 94-113. *)
Definition sys_debug_send_command (handle ptr len : Z) : Sys Z :=
  status ← validate_resource_handle handle;
  when (status <? 0) (Return status);;
  when (kMaxDebugWriteSize <? len) (Return ERR_INVALID_ARGS);;
  r ← user_copy_from ptr len;
  match r with
  | None => Return ERR_INVALID_ARGS
  | Some buf =>
      (* buf[len] = '\n'; buf[len + 1] = 0; *)
      run_script (c_str (buf ++ [10; 0]))
  end.

(** sys_ktrace_read, lines 216-224. *)
Definition sys_ktrace_read (handle ptr off len : Z) : Sys Z :=
  status ← validate_resource_handle handle;
  when (status <? 0) (Return status);;
  trace_read_user ptr off len.

(** sys_ktrace_control, lines 226-244. *)
Definition sys_ktrace_control (handle action options ptr : Z) : Sys Z :=
  status ← validate_resource_handle handle;
  when (status <? 0) (Return status);;
  if action =? KTRACE_ACTION_NEW_PROBE then
    r ← user_copy_from ptr (MX_MAX_NAME_LEN - 1);
    match r with
    | None => Return ERR_INVALID_ARGS
    | Some name =>
        (* name[sizeof(name) - 1] = 0; *)
        trace_control action options (Some (c_str (name ++ [0])))
    end
  else trace_control action options None.

(** sys_thread_write_state, lines 313-343. *)
Definition sys_thread_write_state (handle state_kind _buffer_ptr buffer_len : Z) : Sys Z :=
  up ← GetCurrent;
  '(status, thread) ← GetDispatcher up TThread handle MX_RIGHT_WRITE;
  when (negb (status =? NO_ERROR)) (Return status);;
  (* avoid malloc'ing insane amounts *)
  when (kMaxThreadStateSize MX_MAX_THREAD_STATE_SIZE <? buffer_len) (Return ERR_INVALID_ARGS);;
  ok ← alloc_array buffer_len;
  when (negb ok) (Return ERR_NO_MEMORY);;
  r ← user_copy_from _buffer_ptr buffer_len;
  match r with
  | None => Return ERR_INVALID_ARGS
  | Some bytes => thread_WriteState thread state_kind bytes buffer_len false
  end.

End OtherSyscalls.

(** ** The bootloader framebuffer of the i915 display driver
       (system/dev/display/intel-i915/bootloader-display.cpp) *)

Record zx_display_info_t := MkDisplayInfo {
  di_format : Z;
  di_width : Z;
  di_height : Z;
  di_stride : Z;
  di_pixelsize : Z;
  di_flags : Z
}.

Module BootloaderDisplay.

Section Display.

(** The pixel formats and the display flag (zircon/pixelformat.h,
    zircon/device/display.h) are macros of headers that are not part of the
    sources. *)
Variables (ZX_PIXEL_FORMAT_RGB_565 ZX_PIXEL_FORMAT_RGB_x888 ZX_PIXEL_FORMAT_ARGB_8888 : Z).
Variables (ZX_PIXEL_FORMAT_RGB_332 ZX_PIXEL_FORMAT_RGB_2220 : Z).
Variables (ZX_PIXEL_FORMAT_MONO_1 ZX_PIXEL_FORMAT_MONO_8 : Z).
Variable ZX_DISPLAY_FLAG_HW_FRAMEBUFFER : Z.

(** BootloaderDisplay::Init, lines 13-50.  [fb] is what
    zx_bootloader_fb_get_info reports: format, width, height and stride when
    its status is ZX_OK, nothing otherwise.  [di] is the record the caller
    passes in; the result is the value returned and the record afterwards. *)
Definition Init (fb : option (Z * Z * Z * Z)) (di : zx_display_info_t)
    : bool * zx_display_info_t :=
  let di :=
    match fb with
    | Some (format, width, height, stride) =>
        MkDisplayInfo format width height stride (di_pixelsize di) (di_flags di)
    | None =>
        MkDisplayInfo ZX_PIXEL_FORMAT_RGB_565 (2560 / 2) (1700 / 2) (2560 / 2)
                      (di_pixelsize di) (di_flags di)
    end in
  let di := MkDisplayInfo (di_format di) (di_width di) (di_height di) (di_stride di)
                          (di_pixelsize di) ZX_DISPLAY_FLAG_HW_FRAMEBUFFER in
  let set_pixelsize (n : Z) :=
    MkDisplayInfo (di_format di) (di_width di) (di_height di) (di_stride di) n (di_flags di) in
  if di_format di =? ZX_PIXEL_FORMAT_RGB_565 then (true, set_pixelsize 2)
  else if (di_format di =? ZX_PIXEL_FORMAT_RGB_x888)
          || (di_format di =? ZX_PIXEL_FORMAT_ARGB_8888) then (true, set_pixelsize 4)
  else if (di_format di =? ZX_PIXEL_FORMAT_RGB_332)
          || (di_format di =? ZX_PIXEL_FORMAT_RGB_2220)
          || (di_format di =? ZX_PIXEL_FORMAT_MONO_1)
          || (di_format di =? ZX_PIXEL_FORMAT_MONO_8) then (true, set_pixelsize 1)
  else (* zxlogf(ERROR, "i915: unknown format") *) (false, di).

End Display.

End BootloaderDisplay.

(** ** Concrete collaborators for the other syscalls *)

(** A script runner that echoes the script on the console and returns its
    length. *)
Definition demo_run_script (script : list Z) (k : Kernel (list Z))
    : mx_status_t * Kernel (list Z) :=
  (Z.of_nat (length script), set_console (k_console k ++ script) k).

(** A trace subsystem that reads nothing and whose control returns the length
    of the probe name, or -1 when there is none. *)
Definition demo_ktrace_read_user (ptr off len : Z) (k : Kernel (list Z))
    : Z * Kernel (list Z) := (0, k).

Definition demo_ktrace_control (action options : Z) (name : option (list Z))
    (k : Kernel (list Z)) : mx_status_t * Kernel (list Z) :=
  (from_option (λ n, Z.of_nat (length n)) (-1) name, k).

(** A state writer that refuses privileged writes and otherwise makes the
    bytes written the state of the thread. *)
Definition demo_WriteState (t : UserThread) (kind : Z) (bytes : list Z) (len : Z)
    (priv : bool) : mx_status_t * UserThread :=
  if priv then (ERR_ACCESS_DENIED, t)
  else (NO_ERROR,
        MkThread (λ _ capacity,
                    if capacity <? len then (ERR_BUFFER_TOO_SMALL, [], len)
                    else (NO_ERROR, bytes, len))).

(** The console delivers 'h', 'i', carriage return, 'x', then an error. *)
Definition demo_getchar (i : nat) : Z := nth i [104; 105; 13; 120] (-1).

(** A caller with a resource handle (30) and a thread handle with the WRITE
    right only (21); its user memory holds "ls", a NUL and 61 further bytes
    at 0x100, all writable, and four read-only bytes at 0x140. *)
Definition io_kernel : Kernel (list Z) :=
  MkKernel 1
    (λ koid, if koid =? 1
             then MkProcess (list_to_map [(21, MkHandle (ThreadDisp 5) MX_RIGHT_WRITE);
                                          (22, MkHandle (ThreadDisp 5) MX_RIGHT_READ);
                                          (30, MkHandle (ResourceDisp 6) 0)])
                            (Some [])
             else MkProcess ∅ None)
    (λ _, MkThread demo_reader) (λ _, replicate 16 0)
    (list_to_map (user_range 0x100 [108; 115; 0] true
                  ++ user_range 0x103 (replicate 61 7) true
                  ++ user_range 0x140 [1; 2; 3; 4] false))
    4096 [] (MkKTrace 1 []) [].

(** * Properties *)

(** ** User memory *)

Lemma copy_from_user_length m ptr n bs :
  copy_from_user m ptr n = Some bs → length bs = n.
Proof.
  revert ptr bs. induction n as [|n IH]; intros ptr bs; simpl.
  - intros [= <-]. reflexivity.
  - destruct (m !! ptr) as [c|]; [|discriminate].
    destruct (copy_from_user m (ptr + 1) n) as [bs'|] eqn:E; [|discriminate].
    intros [= <-]. simpl. f_equal. eapply IH, E.
Qed.

Lemma copy_from_user_take m ptr n n' bs :
  copy_from_user m ptr n = Some bs → (n' ≤ n)%nat →
  copy_from_user m ptr n' = Some (take n' bs).
Proof.
  revert ptr n' bs. induction n as [|n IH]; intros ptr n' bs; simpl.
  - intros [= <-] Hle. assert (n' = O) as -> by lia. reflexivity.
  - destruct (m !! ptr) as [c|] eqn:Ec; [|discriminate].
    destruct (copy_from_user m (ptr + 1) n) as [bs'|] eqn:E; [|discriminate].
    intros [= <-] Hle. destruct n' as [|n']; [reflexivity|].
    simpl. rewrite Ec. rewrite (IH _ n' _ E) by lia. reflexivity.
Qed.

Lemma copy_from_user_ext m m' ptr n :
  (∀ a, ptr ≤ a < ptr + Z.of_nat n → m' !! a = m !! a) →
  copy_from_user m' ptr n = copy_from_user m ptr n.
Proof.
  revert ptr. induction n as [|n IH]; intros ptr Hsame; simpl; [reflexivity|].
  rewrite Hsame by lia. rewrite IH; [reflexivity|].
  intros a Ha. apply Hsame. lia.
Qed.

Lemma copy_to_user_outside m ptr bs m' a :
  copy_to_user m ptr bs = Some m' →
  a < ptr ∨ ptr + Z.of_nat (length bs) ≤ a →
  m' !! a = m !! a.
Proof.
  revert m ptr. induction bs as [|b bs IH]; intros m ptr; simpl.
  - intros [= <-] _. reflexivity.
  - destruct (m !! ptr) as [c|]; [|discriminate].
    destruct (u_writable c); [|discriminate].
    intros Hc Ha. rewrite (IH _ _ Hc) by lia.
    apply lookup_insert_ne. lia.
Qed.

Lemma copy_to_user_read_back m ptr bs m' :
  copy_to_user m ptr bs = Some m' →
  copy_from_user m' ptr (length bs) = Some bs.
Proof.
  revert m ptr. induction bs as [|b bs IH]; intros m ptr; simpl; [reflexivity|].
  destruct (m !! ptr) as [c|]; [|discriminate].
  destruct (u_writable c); [|discriminate].
  intros Hc. rewrite (copy_to_user_outside _ _ _ _ ptr Hc) by lia.
  rewrite lookup_insert_eq. rewrite (IH _ _ Hc). reflexivity.
Qed.

Lemma copy_to_user_writable m ptr bs :
  user_writable m ptr (length bs) = true → is_Some (copy_to_user m ptr bs).
Proof.
  revert m ptr. induction bs as [|b bs IH]; intros m ptr; simpl; [eauto|].
  destruct (m !! ptr) as [c|] eqn:Ec; [|discriminate].
  destruct (u_writable c); [|discriminate]. simpl. intros Hw.
  apply IH. clear IH. revert Hw. generalize (ptr + 1) (length bs). intros q n.
  revert q. induction n as [|n IHn]; intros q; simpl; [reflexivity|].
  rewrite lookup_insert. case_decide as Hq.
  - destruct (m !! q) as [c'|]; [|discriminate]. simpl.
    intros [_ Hw]%andb_true_iff. apply IHn, Hw.
  - destruct (m !! q) as [c'|]; [|discriminate].
    intros [Hc' Hw]%andb_true_iff. rewrite Hc'. apply IHn, Hw.
Qed.

Lemma copy_to_user_unwritable m ptr bs :
  copy_to_user m ptr bs = None → user_writable m ptr (length bs) = false.
Proof.
  intros Hnone. destruct (user_writable m ptr (length bs)) eqn:E; [|reflexivity].
  apply copy_to_user_writable in E as [m' E]. congruence.
Qed.

Lemma copy_to_user_keeps_writable m ptr bs m' q n :
  copy_to_user m ptr bs = Some m' →
  user_writable m q n = true → user_writable m' q n = true.
Proof.
  revert m ptr. induction bs as [|b bs IH]; intros m ptr; simpl.
  - intros [= <-]. auto.
  - destruct (m !! ptr) as [c|] eqn:Ec; [|discriminate].
    destruct (u_writable c) eqn:Ew; [|discriminate].
    intros Hc Hw. apply (IH _ _ Hc). clear Hc IH. revert q Hw.
    induction n as [|n IHn]; intros q; simpl; [reflexivity|].
    rewrite lookup_insert. case_decide as Hq.
    + destruct (m !! q) as [c'|]; [|discriminate]. simpl.
      intros [_ Hw]%andb_true_iff. apply IHn, Hw.
    + destruct (m !! q) as [c'|]; [|discriminate].
      intros [Hc' Hw]%andb_true_iff. rewrite Hc'. apply IHn, Hw.
Qed.

(** ** Rights *)

Lemma rights_check_spec (actual desired : Z) :
  magenta_rights_check actual desired = true ↔
  ∀ i, 0 ≤ i → Z.testbit desired i = true → Z.testbit actual i = true.
Proof.
  unfold magenta_rights_check. rewrite Z.eqb_eq. split.
  - intros Hland i Hi Hd. rewrite <- Hland in Hd.
    rewrite Z.land_spec in Hd. apply andb_true_iff in Hd. tauto.
  - intros Hbits. apply Z.bits_inj'. intros i Hi.
    rewrite Z.land_spec. destruct (Z.testbit desired i) eqn:Ed.
    + rewrite (Hbits i Hi Ed). reflexivity.
    + apply andb_false_r.
Qed.

Lemma rights_check_read_write_split (actual : Z) :
  magenta_rights_check actual READ_WRITE
  = magenta_rights_check actual MX_RIGHT_READ && magenta_rights_check actual MX_RIGHT_WRITE.
Proof.
  apply eq_true_iff_eq. rewrite andb_true_iff, !rights_check_spec. split.
  - intros Hb. split; intros i Hi Hd; apply Hb; try exact Hi;
      unfold READ_WRITE; rewrite Z.lor_spec, Hd; [reflexivity|apply orb_true_r].
  - intros [Hr Hw] i Hi Hd. unfold READ_WRITE in Hd. rewrite Z.lor_spec in Hd.
    apply orb_true_iff in Hd as [Hd|Hd]; [apply Hr|apply Hw]; assumption.
Qed.

Lemma rights_check_weaken (actual : Z) :
  magenta_rights_check actual READ_WRITE = true →
  magenta_rights_check actual MX_RIGHT_WRITE = true.
Proof.
  rewrite rights_check_read_write_split. intros [_ Hw]%andb_true_iff. exact Hw.
Qed.

(** ** The memory syscalls, path by path *)

Ltac sys_unfold :=
  cbv beta iota delta
    [run mbind mret Sys_bind Sys_ret bind ret Return when GetCurrent GetDispatcher
     validate_resource_handle aspace aspace_FindRegion region_vmo vmo_ReadUser
     vmo_WriteUser user_copy_to user_copy_from RemoveHandle MapHandleToValue AddHandle
     alloc_array thread_ReadState ktrace_open slot_store].

Ltac kernel_simpl :=
  cbn [records foldl record set_log set_umem set_vmos set_processes set_console set_ktrace
       k_current k_processes k_threads k_vmos k_umem k_heap k_console k_ktrace k_log
       fst snd negb orb andb].

Ltac block_ok Hbuf Hlen0 Hlen :=
  rewrite (proj2 (Z.eqb_neq _ _) Hbuf), (proj2 (Z.eqb_neq _ _) Hlen0),
    (proj2 (Z.ltb_ge _ _) Hlen).

Section Paths.

Context {V : Type} `{VmObject V}.

Implicit Types (k : Kernel V).

Lemma read_memory_bad_args k proc vaddr buffer len actual :
  buffer = 0 ∨ len = 0 ∨ kMaxDebugReadBlock < len →
  run (sys_process_read_memory proc vaddr buffer len actual) k = (ERR_INVALID_ARGS, k).
Proof.
  unfold sys_process_read_memory. sys_unfold. intros Hbad.
  destruct (Z.eqb_spec buffer 0) as [_|Hbuf]; [reflexivity|].
  destruct (Z.eqb_spec len 0) as [_|Hlen0]; [reflexivity|].
  destruct (Z.ltb_spec kMaxDebugReadBlock len) as [_|Hlen]; [reflexivity|].
  exfalso. lia.
Qed.

Lemma write_memory_bad_args k proc vaddr buffer len actual :
  buffer = 0 ∨ len = 0 ∨ kMaxDebugWriteBlock < len →
  run (sys_process_write_memory proc vaddr buffer len actual) k = (ERR_INVALID_ARGS, k).
Proof.
  unfold sys_process_write_memory. sys_unfold. intros Hbad.
  destruct (Z.eqb_spec buffer 0) as [_|Hbuf]; [reflexivity|].
  destruct (Z.eqb_spec len 0) as [_|Hlen0]; [reflexivity|].
  destruct (Z.ltb_spec kMaxDebugWriteBlock len) as [_|Hlen]; [reflexivity|].
  exfalso. lia.
Qed.

Lemma read_memory_denied k proc vaddr buffer len actual st p :
  buffer ≠ 0 → len ≠ 0 → len ≤ kMaxDebugReadBlock →
  get_dispatcher k (k_current k) TProcess proc READ_WRITE = (st, p) →
  st ≠ NO_ERROR →
  run (sys_process_read_memory proc vaddr buffer len actual) k
  = (st, record (EvGetDispatcher proc READ_WRITE st) k).
Proof.
  intros Hbuf Hlen0 Hlen Hd Hst.
  unfold sys_process_read_memory. sys_unfold. block_ok Hbuf Hlen0 Hlen.
  cbn [negb orb]. fold READ_WRITE. rewrite Hd. cbn [fst snd].
  rewrite (proj2 (Z.eqb_neq _ _) Hst). reflexivity.
Qed.

Lemma write_memory_denied k proc vaddr buffer len actual st p :
  buffer ≠ 0 → len ≠ 0 → len ≤ kMaxDebugWriteBlock →
  get_dispatcher k (k_current k) TProcess proc MX_RIGHT_WRITE = (st, p) →
  st ≠ NO_ERROR →
  run (sys_process_write_memory proc vaddr buffer len actual) k
  = (st, record (EvGetDispatcher proc MX_RIGHT_WRITE st) k).
Proof.
  intros Hbuf Hlen0 Hlen Hd Hst.
  unfold sys_process_write_memory. sys_unfold. block_ok Hbuf Hlen0 Hlen.
  cbn [negb orb]. rewrite Hd. cbn [fst snd].
  rewrite (proj2 (Z.eqb_neq _ _) Hst). reflexivity.
Qed.

Lemma read_memory_no_aspace k proc vaddr buffer len actual process :
  buffer ≠ 0 → len ≠ 0 → len ≤ kMaxDebugReadBlock →
  get_dispatcher k (k_current k) TProcess proc READ_WRITE = (NO_ERROR, process) →
  p_aspace (k_processes k process) = None →
  run (sys_process_read_memory proc vaddr buffer len actual) k
  = (ERR_BAD_STATE,
     records [EvGetDispatcher proc READ_WRITE NO_ERROR; EvAspace process] k).
Proof.
  intros Hbuf Hlen0 Hlen Hd Ha.
  unfold sys_process_read_memory. sys_unfold. block_ok Hbuf Hlen0 Hlen.
  cbn [negb orb]. fold READ_WRITE. rewrite Hd. cbn. rewrite Ha. reflexivity.
Qed.

Lemma write_memory_no_aspace k proc vaddr buffer len actual process :
  buffer ≠ 0 → len ≠ 0 → len ≤ kMaxDebugWriteBlock →
  get_dispatcher k (k_current k) TProcess proc MX_RIGHT_WRITE = (NO_ERROR, process) →
  p_aspace (k_processes k process) = None →
  run (sys_process_write_memory proc vaddr buffer len actual) k
  = (ERR_BAD_STATE,
     records [EvGetDispatcher proc MX_RIGHT_WRITE NO_ERROR; EvAspace process] k).
Proof.
  intros Hbuf Hlen0 Hlen Hd Ha.
  unfold sys_process_write_memory. sys_unfold. block_ok Hbuf Hlen0 Hlen.
  cbn [negb orb]. rewrite Hd. cbn. rewrite Ha. reflexivity.
Qed.

Lemma read_memory_no_region k proc vaddr buffer len actual process a :
  buffer ≠ 0 → len ≠ 0 → len ≤ kMaxDebugReadBlock →
  get_dispatcher k (k_current k) TProcess proc READ_WRITE = (NO_ERROR, process) →
  p_aspace (k_processes k process) = Some a →
  FindRegion a vaddr = None →
  run (sys_process_read_memory proc vaddr buffer len actual) k
  = (ERR_NO_MEMORY,
     records [EvGetDispatcher proc READ_WRITE NO_ERROR; EvAspace process;
              EvFindRegion process vaddr] k).
Proof.
  intros Hbuf Hlen0 Hlen Hd Ha Hr.
  unfold sys_process_read_memory. sys_unfold. block_ok Hbuf Hlen0 Hlen.
  cbn [negb orb]. fold READ_WRITE. rewrite Hd. cbn. rewrite Ha, Hr. reflexivity.
Qed.

Lemma write_memory_no_region k proc vaddr buffer len actual process a :
  buffer ≠ 0 → len ≠ 0 → len ≤ kMaxDebugWriteBlock →
  get_dispatcher k (k_current k) TProcess proc MX_RIGHT_WRITE = (NO_ERROR, process) →
  p_aspace (k_processes k process) = Some a →
  FindRegion a vaddr = None →
  run (sys_process_write_memory proc vaddr buffer len actual) k
  = (ERR_NO_MEMORY,
     records [EvGetDispatcher proc MX_RIGHT_WRITE NO_ERROR; EvAspace process;
              EvFindRegion process vaddr] k).
Proof.
  intros Hbuf Hlen0 Hlen Hd Ha Hr.
  unfold sys_process_write_memory. sys_unfold. block_ok Hbuf Hlen0 Hlen.
  cbn [negb orb]. rewrite Hd. cbn. rewrite Ha, Hr. reflexivity.
Qed.

Lemma read_memory_no_vmo k proc vaddr buffer len actual process a region :
  buffer ≠ 0 → len ≠ 0 → len ≤ kMaxDebugReadBlock →
  get_dispatcher k (k_current k) TProcess proc READ_WRITE = (NO_ERROR, process) →
  p_aspace (k_processes k process) = Some a →
  FindRegion a vaddr = Some region →
  r_vmo region = None →
  run (sys_process_read_memory proc vaddr buffer len actual) k
  = (ERR_NO_MEMORY,
     records [EvGetDispatcher proc READ_WRITE NO_ERROR; EvAspace process;
              EvFindRegion process vaddr; EvRegionVmo process vaddr] k).
Proof.
  intros Hbuf Hlen0 Hlen Hd Ha Hr Hv.
  unfold sys_process_read_memory. sys_unfold. block_ok Hbuf Hlen0 Hlen.
  cbn [negb orb]. fold READ_WRITE. rewrite Hd. cbn. rewrite Ha, Hr, Hv. reflexivity.
Qed.

Lemma write_memory_no_vmo k proc vaddr buffer len actual process a region :
  buffer ≠ 0 → len ≠ 0 → len ≤ kMaxDebugWriteBlock →
  get_dispatcher k (k_current k) TProcess proc MX_RIGHT_WRITE = (NO_ERROR, process) →
  p_aspace (k_processes k process) = Some a →
  FindRegion a vaddr = Some region →
  r_vmo region = None →
  run (sys_process_write_memory proc vaddr buffer len actual) k
  = (ERR_NO_MEMORY,
     records [EvGetDispatcher proc MX_RIGHT_WRITE NO_ERROR; EvAspace process;
              EvFindRegion process vaddr; EvRegionVmo process vaddr] k).
Proof.
  intros Hbuf Hlen0 Hlen Hd Ha Hr Hv.
  unfold sys_process_write_memory. sys_unfold. block_ok Hbuf Hlen0 Hlen.
  cbn [negb orb]. rewrite Hd. cbn. rewrite Ha, Hr, Hv. reflexivity.
Qed.

Lemma read_memory_transfer k proc vaddr buffer len actual process a region vmo st n m :
  buffer ≠ 0 → len ≠ 0 → len ≤ kMaxDebugReadBlock →
  get_dispatcher k (k_current k) TProcess proc READ_WRITE = (NO_ERROR, process) →
  p_aspace (k_processes k process) = Some a →
  FindRegion a vaddr = Some region →
  r_vmo region = Some vmo →
  ReadUser (k_vmos k vmo) (k_umem k) buffer (object_offset_of vaddr region) len = (st, n, m) →
  run (sys_process_read_memory proc vaddr buffer len actual) k
  = finish_transfer st n actual
      (records [EvGetDispatcher proc READ_WRITE NO_ERROR; EvAspace process;
                EvFindRegion process vaddr; EvRegionVmo process vaddr;
                EvReadUser vmo buffer (object_offset_of vaddr region) len st n]
         (set_umem m k)).
Proof.
  intros Hbuf Hlen0 Hlen Hd Ha Hr Hv Ht.
  unfold sys_process_read_memory, finish_transfer. sys_unfold. block_ok Hbuf Hlen0 Hlen.
  kernel_simpl. fold READ_WRITE. rewrite Hd. kernel_simpl. rewrite Z.eqb_refl.
  kernel_simpl. rewrite Ha. kernel_simpl. rewrite Hr. kernel_simpl. rewrite Hv.
  kernel_simpl. fold (object_offset_of vaddr region). rewrite Ht.
  kernel_simpl. destruct (Z.eqb_spec st NO_ERROR) as [->|Hst]; [|reflexivity].
  kernel_simpl. destruct (copy_to_user m actual (le_bytes 8 n)); reflexivity.
Qed.

Lemma write_memory_transfer k proc vaddr buffer len actual process a region vmo st n v :
  buffer ≠ 0 → len ≠ 0 → len ≤ kMaxDebugWriteBlock →
  get_dispatcher k (k_current k) TProcess proc MX_RIGHT_WRITE = (NO_ERROR, process) →
  p_aspace (k_processes k process) = Some a →
  FindRegion a vaddr = Some region →
  r_vmo region = Some vmo →
  WriteUser (k_vmos k vmo) (k_umem k) buffer (object_offset_of vaddr region) len = (st, n, v) →
  run (sys_process_write_memory proc vaddr buffer len actual) k
  = finish_transfer st n actual
      (records [EvGetDispatcher proc MX_RIGHT_WRITE NO_ERROR; EvAspace process;
                EvFindRegion process vaddr; EvRegionVmo process vaddr;
                EvWriteUser vmo buffer (object_offset_of vaddr region) len st n]
         (set_vmos (update (k_vmos k) vmo v) k)).
Proof.
  intros Hbuf Hlen0 Hlen Hd Ha Hr Hv Ht.
  unfold sys_process_write_memory, finish_transfer. sys_unfold. block_ok Hbuf Hlen0 Hlen.
  kernel_simpl. rewrite Hd. kernel_simpl. rewrite Z.eqb_refl.
  kernel_simpl. rewrite Ha. kernel_simpl. rewrite Hr. kernel_simpl. rewrite Hv.
  kernel_simpl. fold (object_offset_of vaddr region). rewrite Ht.
  kernel_simpl. destruct (Z.eqb_spec st NO_ERROR) as [->|Hst]; [|reflexivity].
  kernel_simpl. destruct (copy_to_user (k_umem k) actual (le_bytes 8 n)); reflexivity.
Qed.

End Paths.

(** ** Argument checks and the handle gate *)

Section Gate.

Context {V : Type} `{VmObject V}.

Implicit Types (k : Kernel V).

(** C5. A call to [sys_process_read_memory] or [sys_process_write_memory]
    whose buffer is null, whose length is zero or whose length exceeds
    64 MiB returns ERR_INVALID_ARGS and leaves the kernel state, event log
    included, as it was: no handle is looked up, no address is resolved and
    no byte is transferred. *)
Theorem memory_syscalls_reject_bad_arguments k proc vaddr buffer len actual :
  buffer = 0 ∨ len = 0 ∨ 64 * 1024 * 1024 < len →
  run (sys_process_read_memory proc vaddr buffer len actual) k = (ERR_INVALID_ARGS, k)
  ∧ run (sys_process_write_memory proc vaddr buffer len actual) k = (ERR_INVALID_ARGS, k).
Proof.
  intros Hbad. split.
  - apply read_memory_bad_args, Hbad.
  - apply write_memory_bad_args, Hbad.
Qed.

(** What it means for a handle value to resolve, in the table of the caller,
    to a process with both the READ and the WRITE right. *)
Lemma get_dispatcher_read_write k proc st process :
  get_dispatcher k (k_current k) TProcess proc READ_WRITE = (st, process) →
  st = NO_ERROR ↔
  ∃ h, p_handles (k_processes k (k_current k)) !! proc = Some h
       ∧ h_dispatcher h = ProcessDisp process
       ∧ magenta_rights_check (h_rights h) MX_RIGHT_READ = true
       ∧ magenta_rights_check (h_rights h) MX_RIGHT_WRITE = true.
Proof.
  unfold get_dispatcher. intros Hd.
  destruct (p_handles (k_processes k (k_current k)) !! proc) as [h|].
  - destruct (h_dispatcher h) as [koid|koid|koid|koid] eqn:Eh; cbn [DownCastDispatcher] in Hd.
    + rewrite rights_check_read_write_split in Hd.
      destruct (magenta_rights_check (h_rights h) MX_RIGHT_READ) eqn:Er;
        destruct (magenta_rights_check (h_rights h) MX_RIGHT_WRITE) eqn:Ew;
        cbn [andb] in Hd; injection Hd as <- <-.
      * split; [intros _|reflexivity]. exists h. rewrite Er, Ew. auto.
      * split; [discriminate|]. intros (h' & [= <-] & _ & _ & Hw). congruence.
      * split; [discriminate|]. intros (h' & [= <-] & _ & Hr & _). congruence.
      * split; [discriminate|]. intros (h' & [= <-] & _ & Hr & _). congruence.
    + injection Hd as <- <-. split; [discriminate|].
      intros (h' & [= <-] & E & _). congruence.
    + injection Hd as <- <-. split; [discriminate|].
      intros (h' & [= <-] & E & _). congruence.
    + injection Hd as <- <-. split; [discriminate|].
      intros (h' & [= <-] & E & _). congruence.
  - injection Hd as <- <-. split; [discriminate|]. intros (h & [=] & _).
Qed.

(** C1. [sys_process_read_memory] looks the target-process handle up in the
    caller's handle table asking for READ and WRITE: the lookup succeeds
    exactly when the handle is there, refers to a process and carries both
    rights.  When the lookup is made and fails, the call returns the status
    of the lookup and the only event of the call is that lookup: no address
    resolution, no transfer, no write to user memory.  A call that returns
    NO_ERROR had a successful lookup. *)
Theorem read_memory_handle_gate k proc vaddr buffer len actual st process :
  get_dispatcher k (k_current k) TProcess proc READ_WRITE = (st, process) →
  (st = NO_ERROR ↔
   ∃ h, p_handles (k_processes k (k_current k)) !! proc = Some h
        ∧ h_dispatcher h = ProcessDisp process
        ∧ magenta_rights_check (h_rights h) MX_RIGHT_READ = true
        ∧ magenta_rights_check (h_rights h) MX_RIGHT_WRITE = true)
  ∧ (st ≠ NO_ERROR → buffer ≠ 0 → len ≠ 0 → len ≤ 64 * 1024 * 1024 →
     run (sys_process_read_memory proc vaddr buffer len actual) k
     = (st, record (EvGetDispatcher proc READ_WRITE st) k))
  ∧ ((run (sys_process_read_memory proc vaddr buffer len actual) k).1 = NO_ERROR →
     st = NO_ERROR).
Proof.
  intros Hd. split; [apply (get_dispatcher_read_write _ _ _ _ Hd)|]. split.
  - intros Hst Hbuf Hlen0 Hlen. eapply read_memory_denied; eassumption.
  - intros Hok. destruct (Z.eq_dec st NO_ERROR) as [E|Hst]; [exact E|]. exfalso.
    destruct (Z.eq_dec buffer 0) as [Hb|Hb];
      [rewrite read_memory_bad_args in Hok by auto; discriminate|].
    destruct (Z.eq_dec len 0) as [Hl|Hl];
      [rewrite read_memory_bad_args in Hok by auto; discriminate|].
    destruct (Z_lt_le_dec kMaxDebugReadBlock len) as [Hm|Hm];
      [rewrite read_memory_bad_args in Hok by auto; discriminate|].
    rewrite (read_memory_denied _ _ _ _ _ _ _ _ Hb Hl Hm Hd Hst) in Hok.
    apply Hst, Hok.
Qed.

End Gate.

Lemma memory_syscalls_reject_bad_arguments_witness :
  run (sys_process_read_memory 10 0x1000 0 4 0x108) demo_kernel
  = (ERR_INVALID_ARGS, demo_kernel)
  ∧ run (sys_process_write_memory 10 0x1000 0 4 0x108) demo_kernel
    = (ERR_INVALID_ARGS, demo_kernel).
Proof.
  apply (memory_syscalls_reject_bad_arguments demo_kernel 10 0x1000 0 4 0x108).
  left. reflexivity.
Defined.

Lemma read_memory_handle_gate_witness :
  run (sys_process_read_memory 11 0x1000 0x110 4 0x118) demo_kernel
  = (ERR_ACCESS_DENIED,
     record (EvGetDispatcher 11 READ_WRITE ERR_ACCESS_DENIED) demo_kernel).
Proof.
  refine (proj1 (proj2 (read_memory_handle_gate demo_kernel 11 0x1000 0x110 4 0x118
                          ERR_ACCESS_DENIED 0 _)) _ _ _ _).
  - reflexivity.
  - discriminate.
  - discriminate.
  - discriminate.
  - vm_compute. discriminate.
Defined.

(** ** Targets that cannot be resolved *)

Lemma FindRegion_none (a : list VmRegion) (vaddr : Z) :
  (∀ r, r ∈ a → region_contains vaddr r = false) → FindRegion a vaddr = None.
Proof.
  unfold FindRegion. induction a as [|r a IH]; intros Hno; simpl; [reflexivity|].
  rewrite (Hno r) by apply list_elem_of_here.
  apply IH. intros r' Hr'. apply Hno, list_elem_of_further, Hr'.
Qed.

Lemma FindRegion_some (a : list VmRegion) (vaddr : Z) (r : VmRegion) :
  FindRegion a vaddr = Some r → r ∈ a ∧ r_base r ≤ vaddr < r_base r + r_size r.
Proof.
  unfold FindRegion. intros Hf. apply find_some in Hf as [Hin Hc].
  split; [apply list_elem_of_In, Hin|].
  unfold region_contains in Hc. apply andb_true_iff in Hc as [Hlo Hhi].
  apply Z.leb_le in Hlo. apply Z.ltb_lt in Hhi. lia.
Qed.

Section Unresolved.

Context {V : Type} `{VmObject V}.

Implicit Types (k : Kernel V).

(** C3. A call to [sys_process_read_memory] or [sys_process_write_memory]
    that passes the argument checks and the handle and rights check returns
    ERR_BAD_STATE when the target process has no address space, and
    ERR_NO_MEMORY when it has one but no region contains [vaddr], or the
    region that contains [vaddr] has no backing storage object. *)
Theorem memory_syscalls_unresolved_target k proc vaddr buffer len actual :
  buffer ≠ 0 → len ≠ 0 → len ≤ 64 * 1024 * 1024 →
  (∀ process,
     get_dispatcher k (k_current k) TProcess proc READ_WRITE = (NO_ERROR, process) →
     let r := run (sys_process_read_memory proc vaddr buffer len actual) k in
     (p_aspace (k_processes k process) = None → r.1 = ERR_BAD_STATE)
     ∧ (∀ a, p_aspace (k_processes k process) = Some a →
             (∀ region, region ∈ a → region_contains vaddr region = false) →
             r.1 = ERR_NO_MEMORY)
     ∧ (∀ a region, p_aspace (k_processes k process) = Some a →
             FindRegion a vaddr = Some region → r_vmo region = None →
             r.1 = ERR_NO_MEMORY))
  ∧ (∀ process,
     get_dispatcher k (k_current k) TProcess proc MX_RIGHT_WRITE = (NO_ERROR, process) →
     let r := run (sys_process_write_memory proc vaddr buffer len actual) k in
     (p_aspace (k_processes k process) = None → r.1 = ERR_BAD_STATE)
     ∧ (∀ a, p_aspace (k_processes k process) = Some a →
             (∀ region, region ∈ a → region_contains vaddr region = false) →
             r.1 = ERR_NO_MEMORY)
     ∧ (∀ a region, p_aspace (k_processes k process) = Some a →
             FindRegion a vaddr = Some region → r_vmo region = None →
             r.1 = ERR_NO_MEMORY)).
Proof.
  intros Hbuf Hlen0 Hlen. split; intros process Hd r; subst r; repeat split.
  - intros Ha. erewrite read_memory_no_aspace by eassumption. reflexivity.
  - intros a Ha Hno. apply FindRegion_none in Hno.
    erewrite read_memory_no_region by eassumption. reflexivity.
  - intros a region Ha Hr Hv.
    erewrite read_memory_no_vmo by eassumption. reflexivity.
  - intros Ha. erewrite write_memory_no_aspace by eassumption. reflexivity.
  - intros a Ha Hno. apply FindRegion_none in Hno.
    erewrite write_memory_no_region by eassumption. reflexivity.
  - intros a region Ha Hr Hv.
    erewrite write_memory_no_vmo by eassumption. reflexivity.
Qed.

End Unresolved.

(** Handle 13 of the caller refers to process 3, which was torn down; handle
    10 to process 2, where nothing is mapped at 0x3000; handle 14 to process
    4, whose region at 0x2000 has no storage object. *)
Lemma memory_syscalls_unresolved_target_witness :
  (run (sys_process_read_memory 13 0x1000 0x110 4 0x118) demo_kernel).1 = ERR_BAD_STATE
  ∧ (run (sys_process_write_memory 10 0x3000 0x100 4 0x108) demo_kernel).1 = ERR_NO_MEMORY
  ∧ (run (sys_process_read_memory 14 0x2000 0x110 4 0x118) demo_kernel).1 = ERR_NO_MEMORY.
Proof.
  split; [|split].
  - refine (proj1 (proj1 (memory_syscalls_unresolved_target demo_kernel 13 0x1000 0x110 4
                            0x118 _ _ _) 3 _) _);
      [discriminate|discriminate|vm_compute; discriminate|reflexivity|reflexivity].
  - refine (proj1 (proj2 (proj2 (memory_syscalls_unresolved_target demo_kernel 10 0x3000
                            0x100 4 0x108 _ _ _) 2 _)) [demo_region] _ _);
      [discriminate|discriminate|vm_compute; discriminate|reflexivity|reflexivity|].
    intros region Hin. apply list_elem_of_singleton in Hin. subst region. reflexivity.
  - refine (proj2 (proj2 (proj1 (memory_syscalls_unresolved_target demo_kernel 14 0x2000
                            0x110 4 0x118 _ _ _) 4 _)) _ (MkRegion 0x2000 16 0 None) _ _ _);
      [discriminate|discriminate|vm_compute; discriminate|reflexivity|reflexivity
      |reflexivity|reflexivity].
Defined.

(** ** Handle transfer *)

Section Transfer.

Context {V : Type} `{VmObject V}.

Implicit Types (k : Kernel V).

(** C4. Whatever the source handle value, when the target-process handle
    resolves with READ and WRITE to the calling process itself,
    [sys_debug_transfer_handle] returns ERR_INVALID_ARGS; the only event of
    the call is the lookup of the target handle, so the source handle is
    neither looked up nor removed, and every handle table is as before. *)
Theorem transfer_handle_to_self_rejected k proc src_handle :
  get_dispatcher k (k_current k) TProcess proc READ_WRITE = (NO_ERROR, k_current k) →
  let r := run (sys_debug_transfer_handle proc src_handle) k in
  r = (ERR_INVALID_ARGS, record (EvGetDispatcher proc READ_WRITE NO_ERROR) k)
  ∧ k_processes r.2 = k_processes k
  ∧ k_log r.2 = k_log k ++ [EvGetDispatcher proc READ_WRITE NO_ERROR].
Proof.
  intros Hd r. assert (r = (ERR_INVALID_ARGS,
                            record (EvGetDispatcher proc READ_WRITE NO_ERROR) k)) as Hr.
  { subst r. unfold sys_debug_transfer_handle. sys_unfold. kernel_simpl.
    fold READ_WRITE. rewrite Hd. kernel_simpl. rewrite Z.eqb_refl. kernel_simpl.
    rewrite Z.eqb_refl. reflexivity. }
  rewrite Hr. repeat split.
Qed.

End Transfer.

(** Handle 12 of the caller refers to the caller itself; 99 is no handle of
    the caller and 11 is one. *)
Lemma transfer_handle_to_self_rejected_witness :
  (run (sys_debug_transfer_handle 12 99) demo_kernel).1 = ERR_INVALID_ARGS
  ∧ (run (sys_debug_transfer_handle 12 11) demo_kernel).1 = ERR_INVALID_ARGS
  ∧ k_processes (run (sys_debug_transfer_handle 12 11) demo_kernel).2
    = k_processes demo_kernel.
Proof.
  pose proof (transfer_handle_to_self_rejected demo_kernel 12 99 eq_refl) as [E1 _].
  pose proof (transfer_handle_to_self_rejected demo_kernel 12 11 eq_refl) as [E2 [P2 _]].
  split; [|split].
  - exact (f_equal fst E1).
  - exact (f_equal fst E2).
  - exact P2.
Defined.

(** ** The trace log *)

Lemma alter_last {A : Type} (f : A → A) (l : list A) (x : A) :
  alter f (length l) (l ++ [x]) = l ++ [f x].
Proof.
  induction l as [|y l IH]; [reflexivity|]. cbn. f_equal. exact IH.
Qed.

Section Ktrace.

Context {V : Type} `{VmObject V}.

Variable TAG_PROBE_24 : Z → Z.

Implicit Types (k : Kernel V).

(** C7. With a handle that validates as a resource, [sys_ktrace_write]
    returns ERR_INVALID_ARGS when the event id is above 0x7FF (the trace log
    is not touched); otherwise ERR_UNAVAILABLE when no probe slot can be
    opened; otherwise it stores the two words in the slot that was opened and
    returns NO_ERROR. *)
Theorem ktrace_write_outcomes k handle event_id arg0 arg1 :
  0 ≤ (get_dispatcher k (k_current k) TResource handle 0).1 →
  let r := run (sys_ktrace_write TAG_PROBE_24 handle event_id arg0 arg1) k in
  (0x7FF < event_id →
   r = (ERR_INVALID_ARGS, record (EvGetDispatcher handle 0 NO_ERROR) k))
  ∧ (event_id ≤ 0x7FF →
     ktrace_open_slot (TAG_PROBE_24 event_id) (k_ktrace k) = None →
     r = (ERR_UNAVAILABLE,
          records [EvGetDispatcher handle 0 NO_ERROR;
                   EvKtraceOpen (TAG_PROBE_24 event_id) false] k))
  ∧ (event_id ≤ 0x7FF →
     ∀ slot kt, ktrace_open_slot (TAG_PROBE_24 event_id) (k_ktrace k) = Some (slot, kt) →
     r.1 = NO_ERROR
     ∧ kt_slots (k_ktrace r.2) !! slot = Some (MkSlot (TAG_PROBE_24 event_id) arg0 arg1)
     ∧ kt_slots (k_ktrace r.2)
       = kt_slots (k_ktrace k) ++ [MkSlot (TAG_PROBE_24 event_id) arg0 arg1]).
Proof.
  intros Hvalid r.
  assert (get_dispatcher k (k_current k) TResource handle 0
          = (NO_ERROR, (get_dispatcher k (k_current k) TResource handle 0).2)) as Hd.
  { revert Hvalid. unfold get_dispatcher.
    destruct (p_handles (k_processes k (k_current k)) !! handle) as [h|];
      [|cbn; unfold ERR_BAD_HANDLE; lia].
    destruct (DownCastDispatcher TResource (h_dispatcher h));
      [|cbn; unfold ERR_WRONG_TYPE; lia].
    destruct (magenta_rights_check (h_rights h) 0);
      [reflexivity|cbn; unfold ERR_ACCESS_DENIED; lia]. }
  assert (∀ slot kt,
            ktrace_open_slot (TAG_PROBE_24 event_id) (k_ktrace k) = Some (slot, kt) →
            slot = length (kt_slots (k_ktrace k))
            ∧ kt_slots kt = kt_slots (k_ktrace k) ++ [MkSlot (TAG_PROBE_24 event_id) 0 0])
    as Hslot.
  { intros slot kt. unfold ktrace_open_slot.
    destruct (kt_free (k_ktrace k)); [discriminate|]. intros [= <- <-]. split; reflexivity. }
  subst r. unfold sys_ktrace_write. sys_unfold. kernel_simpl. rewrite Hd.
  kernel_simpl. change (NO_ERROR <? 0) with false. cbv iota. split; [|split].
  - intros Hid. rewrite (proj2 (Z.ltb_lt _ _) Hid). reflexivity.
  - intros Hid Hopen. rewrite (proj2 (Z.ltb_ge _ _) Hid). kernel_simpl.
    rewrite Hopen. reflexivity.
  - intros Hid slot kt Hopen. rewrite (proj2 (Z.ltb_ge _ _) Hid). kernel_simpl.
    rewrite Hopen. kernel_simpl. cbn [kt_slots].
    destruct (Hslot slot kt Hopen) as [-> ->]. rewrite alter_last.
    split; [reflexivity|]. split; [|reflexivity].
    apply list_lookup_middle. reflexivity.
Qed.

End Ktrace.

(** Scenario 4 of the specification: event 0x800 is refused, event 0x010
    with a free slot is stored with the words 1 and 2; with no slot left the
    call is ERR_UNAVAILABLE. *)
Lemma ktrace_write_outcomes_witness :
  (run (sys_ktrace_write demo_tag 30 0x800 1 2) demo_kernel).1 = ERR_INVALID_ARGS
  ∧ (run (sys_ktrace_write demo_tag 30 0x010 1 2) console_kernel).1 = ERR_UNAVAILABLE
  ∧ (run (sys_ktrace_write demo_tag 30 0x010 1 2) demo_kernel).1 = NO_ERROR
  ∧ kt_slots (k_ktrace (run (sys_ktrace_write demo_tag 30 0x010 1 2) demo_kernel).2)
    = [MkSlot (demo_tag 0x010) 1 2].
Proof.
  assert (0 ≤ (get_dispatcher demo_kernel (k_current demo_kernel) TResource 30 0).1)
    as Hd by (vm_compute; discriminate).
  assert (0 ≤ (get_dispatcher console_kernel (k_current console_kernel) TResource 30 0).1)
    as Hc by (vm_compute; discriminate).
  split; [|split; [|split]].
  - refine (f_equal fst (proj1 (ktrace_write_outcomes demo_tag demo_kernel 30 0x800 1 2 Hd) _)).
    reflexivity.
  - refine (f_equal fst (proj1 (proj2 (ktrace_write_outcomes demo_tag console_kernel 30
                                         0x010 1 2 Hc)) _ _)).
    + vm_compute. discriminate.
    + reflexivity.
  - refine (proj1 (proj2 (proj2 (ktrace_write_outcomes demo_tag demo_kernel 30 0x010 1 2 Hd))
                     _ O (MkKTrace 0 [MkSlot (demo_tag 0x010) 0 0]) _)).
    + vm_compute. discriminate.
    + reflexivity.
  - refine (proj2 (proj2 (proj2 (proj2 (ktrace_write_outcomes demo_tag demo_kernel 30 0x010
                                          1 2 Hd))
                     _ O (MkKTrace 0 [MkSlot (demo_tag 0x010) 0 0]) _))).
    + vm_compute. discriminate.
    + reflexivity.
Defined.

(** ** The debug console *)

Section Console.

Context {V : Type} `{VmObject V}.

Implicit Types (k : Kernel V).

Lemma dputc_loop_appends (buf : list Z) k :
  dputc_loop buf k = (inr tt, set_console (k_console k ++ buf) k).
Proof.
  revert k. induction buf as [|c buf IH]; intros k.
  - destruct k. cbn. unfold set_console. cbn. rewrite app_nil_r. reflexivity.
  - cbn [dputc_loop]. sys_unfold. unfold platform_dputc. rewrite IH.
    unfold set_console. cbn. rewrite <- app_assoc. reflexivity.
Qed.

Lemma debug_write_copied k ptr len buf :
  kMaxDebugWriteSize < len →
  copy_from_user (k_umem k) ptr 256 = Some buf →
  run (sys_debug_write ptr len) k
  = (256, set_console (k_console k ++ buf) (record (EvCopyFromUser ptr 256 true) k)).
Proof.
  intros Hlen Hbuf. unfold sys_debug_write. rewrite (proj2 (Z.ltb_lt _ _) Hlen).
  sys_unfold. change (Z.to_nat kMaxDebugWriteSize) with 256%nat. rewrite Hbuf.
  rewrite dputc_loop_appends. reflexivity.
Qed.

Lemma debug_write_faulted k ptr len :
  kMaxDebugWriteSize < len →
  copy_from_user (k_umem k) ptr 256 = None →
  run (sys_debug_write ptr len) k
  = (ERR_INVALID_ARGS, record (EvCopyFromUser ptr 256 false) k).
Proof.
  intros Hlen Hbuf. unfold sys_debug_write. rewrite (proj2 (Z.ltb_lt _ _) Hlen).
  sys_unfold. change (Z.to_nat kMaxDebugWriteSize) with 256%nat. rewrite Hbuf.
  reflexivity.
Qed.

(** C9, amended. For a call to [sys_debug_write] with a length above 256 the
    length is clamped to 256.  When the first 256 bytes of the buffer can be
    copied from the caller, exactly these bytes are appended to the console
    and the call returns 256 (for a buffer that holds all [len] bytes they
    are its first 256 bytes); when that copy fails the call returns
    ERR_INVALID_ARGS and nothing reaches the console. *)
Theorem debug_write_clamps k ptr len :
  256 < len →
  let r := run (sys_debug_write ptr len) k in
  (∀ buf, copy_from_user (k_umem k) ptr 256 = Some buf →
          r.1 = 256 ∧ k_console r.2 = k_console k ++ buf ∧ length buf = 256%nat)
  ∧ (∀ data, copy_from_user (k_umem k) ptr (Z.to_nat len) = Some data →
             r.1 = 256 ∧ k_console r.2 = k_console k ++ take 256 data)
  ∧ (copy_from_user (k_umem k) ptr 256 = None →
     r.1 = ERR_INVALID_ARGS ∧ k_console r.2 = k_console k).
Proof.
  intros Hlen r. subst r. split; [|split].
  - intros buf Hbuf. rewrite (debug_write_copied _ _ _ _ Hlen Hbuf).
    split; [reflexivity|]. split; [reflexivity|].
    eapply copy_from_user_length, Hbuf.
  - intros data Hdata.
    rewrite (debug_write_copied k ptr len (take 256 data) Hlen); [split; reflexivity|].
    eapply copy_from_user_take; [exact Hdata|lia].
  - intros Hbuf. rewrite (debug_write_faulted _ _ _ Hlen Hbuf). split; reflexivity.
Qed.

End Console.

(** A write of the 300 bytes of [demo_text] puts its first 256 bytes on the
    console and returns 256. *)
Lemma debug_write_clamps_witness :
  (run (sys_debug_write 0x4000 300) console_kernel).1 = 256
  ∧ k_console (run (sys_debug_write 0x4000 300) console_kernel).2 = take 256 demo_text.
Proof.
  refine (proj1 (proj2 (debug_write_clamps console_kernel 0x4000 300 _)) demo_text _).
  - reflexivity.
  - vm_compute. reflexivity.
Defined.

(** C9 as stated fails: a write of 300 bytes from an address that is not
    mapped passes the clamp and returns ERR_INVALID_ARGS, not 256, and emits
    nothing. *)
Lemma debug_write_unmapped_buffer :
  256 < 300
  ∧ (run (sys_debug_write 0x2000 300) demo_kernel).1 = ERR_INVALID_ARGS
  ∧ (run (sys_debug_write 0x2000 300) demo_kernel).1 ≠ 256
  ∧ k_console (run (sys_debug_write 0x2000 300) demo_kernel).2 = [].
Proof.
  split; [reflexivity|]. split; [vm_compute; reflexivity|].
  split; [vm_compute; discriminate|vm_compute; reflexivity].
Qed.

(** ** Reporting the byte count *)

Lemma update_same {A : Type} (f : Z → A) (i : Z) (a : A) : update f i a i = a.
Proof. unfold update. rewrite Z.eqb_refl. reflexivity. Qed.

Lemma update_other {A : Type} (f : Z → A) (i j : Z) (a : A) :
  j ≠ i → update f i a j = f j.
Proof. intros Hne. unfold update. rewrite (proj2 (Z.eqb_neq _ _) Hne). reflexivity. Qed.

Lemma finish_transfer_reports {V : Type} (st n actual : Z) (k1 : Kernel V) :
  let r := finish_transfer st n actual k1 in
  (st ≠ NO_ERROR ∧ r.1 = st ∧ k_log r.2 = k_log k1)
  ∨ (st = NO_ERROR ∧ r.1 = NO_ERROR
     ∧ k_log r.2 = k_log k1 ++ [EvCopyToUser actual (le_bytes 8 n) true]
     ∧ copy_from_user (k_umem r.2) actual 8 = Some (le_bytes 8 n))
  ∨ (st = NO_ERROR ∧ r.1 = ERR_INVALID_ARGS
     ∧ k_log r.2 = k_log k1 ++ [EvCopyToUser actual (le_bytes 8 n) false]).
Proof.
  unfold finish_transfer. destruct (Z.eqb_spec st NO_ERROR) as [->|Hst].
  - right. destruct (copy_to_user (k_umem k1) actual (le_bytes 8 n)) as [m|] eqn:Hc.
    + left. kernel_simpl. split; [reflexivity|]. split; [reflexivity|].
      split; [reflexivity|].
      apply (copy_to_user_read_back (k_umem k1) actual (le_bytes 8 n) m Hc).
    + right. kernel_simpl. split; [reflexivity|]. split; reflexivity.
  - left. split; [exact Hst|]. split; reflexivity.
Qed.

Section ActualLength.

Context {V : Type} `{VmObject V}.

Variables (k : Kernel V) (proc vaddr buffer len actual : Z).

(** C8, amended. Every call to [sys_process_read_memory] or
    [sys_process_write_memory] does one of four things.  It fails before the
    transfer: it makes no transfer and no copy to user memory.  It makes the
    transfer, which fails: the status of the transfer is returned and no copy
    to the actual-length out-parameter is made.  It makes the transfer, which
    returns NO_ERROR, and copies the byte count of the transfer to the
    out-parameter: the call returns NO_ERROR and the out-parameter holds the
    count.  Or the transfer returns NO_ERROR and the copy of the count fails:
    the call returns ERR_INVALID_ARGS.  So the count is copied to the
    out-parameter only after a transfer that succeeded, and a call that
    returns NO_ERROR has stored it. *)
Theorem memory_actual_length_reporting :
  (let r := run (sys_process_read_memory proc vaddr buffer len actual) k in
   ∃ before, before_transfer before = true
     ∧ ((r.1 ≠ NO_ERROR ∧ k_log r.2 = k_log k ++ before)
        ∨ ∃ vmo offset st n,
            (ReadUser (k_vmos k vmo) (k_umem k) buffer offset len).1 = (st, n)
            ∧ ((st ≠ NO_ERROR ∧ r.1 = st
                ∧ k_log r.2 = k_log k ++ before ++ [EvReadUser vmo buffer offset len st n])
               ∨ (st = NO_ERROR ∧ r.1 = NO_ERROR
                  ∧ k_log r.2 = k_log k ++ before
                                ++ [EvReadUser vmo buffer offset len st n;
                                    EvCopyToUser actual (le_bytes 8 n) true]
                  ∧ copy_from_user (k_umem r.2) actual 8 = Some (le_bytes 8 n))
               ∨ (st = NO_ERROR ∧ r.1 = ERR_INVALID_ARGS
                  ∧ k_log r.2 = k_log k ++ before
                                ++ [EvReadUser vmo buffer offset len st n;
                                    EvCopyToUser actual (le_bytes 8 n) false]))))
  ∧ (let r := run (sys_process_write_memory proc vaddr buffer len actual) k in
     ∃ before, before_transfer before = true
       ∧ ((r.1 ≠ NO_ERROR ∧ k_log r.2 = k_log k ++ before)
          ∨ ∃ vmo offset st n,
              (WriteUser (k_vmos k vmo) (k_umem k) buffer offset len).1 = (st, n)
              ∧ ((st ≠ NO_ERROR ∧ r.1 = st
                  ∧ k_log r.2 = k_log k ++ before
                                ++ [EvWriteUser vmo buffer offset len st n])
                 ∨ (st = NO_ERROR ∧ r.1 = NO_ERROR
                    ∧ k_log r.2 = k_log k ++ before
                                  ++ [EvWriteUser vmo buffer offset len st n;
                                      EvCopyToUser actual (le_bytes 8 n) true]
                    ∧ copy_from_user (k_umem r.2) actual 8 = Some (le_bytes 8 n))
                 ∨ (st = NO_ERROR ∧ r.1 = ERR_INVALID_ARGS
                    ∧ k_log r.2 = k_log k ++ before
                                  ++ [EvWriteUser vmo buffer offset len st n;
                                      EvCopyToUser actual (le_bytes 8 n) false])))).
Proof.
  split.
  - intros r. subst r.
    destruct (Z.eq_dec buffer 0) as [Hb|Hb];
      [exists []; split; [reflexivity|]; left;
       rewrite read_memory_bad_args by auto;
       split; [discriminate|symmetry; apply app_nil_r]|].
    destruct (Z.eq_dec len 0) as [Hl|Hl];
      [exists []; split; [reflexivity|]; left;
       rewrite read_memory_bad_args by auto;
       split; [discriminate|symmetry; apply app_nil_r]|].
    destruct (Z_lt_le_dec kMaxDebugReadBlock len) as [Hm|Hm];
      [exists []; split; [reflexivity|]; left;
       rewrite read_memory_bad_args by auto;
       split; [discriminate|symmetry; apply app_nil_r]|].
    destruct (get_dispatcher k (k_current k) TProcess proc READ_WRITE)
      as [st0 process] eqn:Hd.
    destruct (Z.eq_dec st0 NO_ERROR) as [->|Hst].
    2:{ exists [EvGetDispatcher proc READ_WRITE st0]. split; [reflexivity|]. left.
        rewrite (read_memory_denied _ _ _ _ _ _ _ _ Hb Hl Hm Hd Hst).
        split; [exact Hst|reflexivity]. }
    destruct (p_aspace (k_processes k process)) as [a|] eqn:Ha.
    2:{ exists [EvGetDispatcher proc READ_WRITE NO_ERROR; EvAspace process].
        split; [reflexivity|]. left.
        rewrite (read_memory_no_aspace _ _ _ _ _ _ _ Hb Hl Hm Hd Ha).
        split; [discriminate|]. kernel_simpl. rewrite <- !app_assoc. reflexivity. }
    destruct (FindRegion a vaddr) as [region|] eqn:Hr.
    2:{ exists [EvGetDispatcher proc READ_WRITE NO_ERROR; EvAspace process;
                EvFindRegion process vaddr].
        split; [reflexivity|]. left.
        rewrite (read_memory_no_region _ _ _ _ _ _ _ _ Hb Hl Hm Hd Ha Hr).
        split; [discriminate|]. kernel_simpl. rewrite <- !app_assoc. reflexivity. }
    destruct (r_vmo region) as [vmo|] eqn:Hv.
    2:{ exists (resolved_events proc process vaddr READ_WRITE).
        split; [reflexivity|]. left.
        rewrite (read_memory_no_vmo _ _ _ _ _ _ _ _ _ Hb Hl Hm Hd Ha Hr Hv).
        split; [discriminate|]. unfold resolved_events. kernel_simpl.
        rewrite <- !app_assoc. reflexivity. }
    destruct (ReadUser (k_vmos k vmo) (k_umem k) buffer (object_offset_of vaddr region) len)
      as [[st n] m] eqn:Ht.
    exists (resolved_events proc process vaddr READ_WRITE). split; [reflexivity|]. right.
    exists vmo, (object_offset_of vaddr region), st, n.
    split; [rewrite Ht; reflexivity|].
    rewrite (read_memory_transfer _ _ _ _ _ _ _ _ _ _ _ _ _ Hb Hl Hm Hd Ha Hr Hv Ht).
    unfold resolved_events.
    destruct (finish_transfer_reports st n actual
                (records [EvGetDispatcher proc READ_WRITE NO_ERROR; EvAspace process;
                          EvFindRegion process vaddr; EvRegionVmo process vaddr;
                          EvReadUser vmo buffer (object_offset_of vaddr region) len st n]
                   (set_umem m k)))
      as [(Hst & Hres & Hlog)|[(Hst & Hres & Hlog & Hback)|(Hst & Hres & Hlog)]];
      [left|right; left|right; right]; rewrite Hres, Hlog; kernel_simpl;
      rewrite <- !app_assoc; repeat split; auto.
  - intros r. subst r.
    destruct (Z.eq_dec buffer 0) as [Hb|Hb];
      [exists []; split; [reflexivity|]; left;
       rewrite write_memory_bad_args by auto;
       split; [discriminate|symmetry; apply app_nil_r]|].
    destruct (Z.eq_dec len 0) as [Hl|Hl];
      [exists []; split; [reflexivity|]; left;
       rewrite write_memory_bad_args by auto;
       split; [discriminate|symmetry; apply app_nil_r]|].
    destruct (Z_lt_le_dec kMaxDebugWriteBlock len) as [Hm|Hm];
      [exists []; split; [reflexivity|]; left;
       rewrite write_memory_bad_args by auto;
       split; [discriminate|symmetry; apply app_nil_r]|].
    destruct (get_dispatcher k (k_current k) TProcess proc MX_RIGHT_WRITE)
      as [st0 process] eqn:Hd.
    destruct (Z.eq_dec st0 NO_ERROR) as [->|Hst].
    2:{ exists [EvGetDispatcher proc MX_RIGHT_WRITE st0]. split; [reflexivity|]. left.
        rewrite (write_memory_denied _ _ _ _ _ _ _ _ Hb Hl Hm Hd Hst).
        split; [exact Hst|reflexivity]. }
    destruct (p_aspace (k_processes k process)) as [a|] eqn:Ha.
    2:{ exists [EvGetDispatcher proc MX_RIGHT_WRITE NO_ERROR; EvAspace process].
        split; [reflexivity|]. left.
        rewrite (write_memory_no_aspace _ _ _ _ _ _ _ Hb Hl Hm Hd Ha).
        split; [discriminate|]. kernel_simpl. rewrite <- !app_assoc. reflexivity. }
    destruct (FindRegion a vaddr) as [region|] eqn:Hr.
    2:{ exists [EvGetDispatcher proc MX_RIGHT_WRITE NO_ERROR; EvAspace process;
                EvFindRegion process vaddr].
        split; [reflexivity|]. left.
        rewrite (write_memory_no_region _ _ _ _ _ _ _ _ Hb Hl Hm Hd Ha Hr).
        split; [discriminate|]. kernel_simpl. rewrite <- !app_assoc. reflexivity. }
    destruct (r_vmo region) as [vmo|] eqn:Hv.
    2:{ exists (resolved_events proc process vaddr MX_RIGHT_WRITE).
        split; [reflexivity|]. left.
        rewrite (write_memory_no_vmo _ _ _ _ _ _ _ _ _ Hb Hl Hm Hd Ha Hr Hv).
        split; [discriminate|]. unfold resolved_events. kernel_simpl.
        rewrite <- !app_assoc. reflexivity. }
    destruct (WriteUser (k_vmos k vmo) (k_umem k) buffer (object_offset_of vaddr region) len)
      as [[st n] v] eqn:Ht.
    exists (resolved_events proc process vaddr MX_RIGHT_WRITE). split; [reflexivity|]. right.
    exists vmo, (object_offset_of vaddr region), st, n.
    split; [rewrite Ht; reflexivity|].
    rewrite (write_memory_transfer _ _ _ _ _ _ _ _ _ _ _ _ _ Hb Hl Hm Hd Ha Hr Hv Ht).
    unfold resolved_events.
    destruct (finish_transfer_reports st n actual
                (records [EvGetDispatcher proc MX_RIGHT_WRITE NO_ERROR; EvAspace process;
                          EvFindRegion process vaddr; EvRegionVmo process vaddr;
                          EvWriteUser vmo buffer (object_offset_of vaddr region) len st n]
                   (set_vmos (update (k_vmos k) vmo v) k)))
      as [(Hst & Hres & Hlog)|[(Hst & Hres & Hlog & Hback)|(Hst & Hres & Hlog)]];
      [left|right; left|right; right]; rewrite Hres, Hlog; kernel_simpl;
      rewrite <- !app_assoc; repeat split; auto.
Qed.

End ActualLength.

Section Transferred.

Context {V : Type} `{VmObject V}.

Variables (k : Kernel V) (proc vaddr buffer len actual process vmo : Z).
Variables (a : list VmRegion) (region : VmRegion).

Hypothesis buffer_not_null : buffer ≠ 0.
Hypothesis len_not_zero : len ≠ 0.
Hypothesis len_in_block : len ≤ 64 * 1024 * 1024.
Hypothesis target_aspace : p_aspace (k_processes k process) = Some a.
Hypothesis target_region : FindRegion a vaddr = Some region.
Hypothesis target_vmo : r_vmo region = Some vmo.


(** C10. [sys_process_write_memory] is not atomic on its last error path:
    when the write to the storage object succeeds and the copy of the byte
    count to the out-parameter fails, the call returns ERR_INVALID_ARGS and
    the storage object of the target is the object the write produced. *)
Theorem write_memory_not_atomic (n : Z) (v : V) :
  get_dispatcher k (k_current k) TProcess proc MX_RIGHT_WRITE = (NO_ERROR, process) →
  WriteUser (k_vmos k vmo) (k_umem k) buffer (object_offset_of vaddr region) len
  = (NO_ERROR, n, v) →
  copy_to_user (k_umem k) actual (le_bytes 8 n) = None →
  let r := run (sys_process_write_memory proc vaddr buffer len actual) k in
  r.1 = ERR_INVALID_ARGS
  ∧ k_vmos r.2 vmo = v
  ∧ k_umem r.2 = k_umem k
  ∧ k_log r.2
    = k_log k ++ resolved_events proc process vaddr MX_RIGHT_WRITE
      ++ [EvWriteUser vmo buffer (object_offset_of vaddr region) len NO_ERROR n;
          EvCopyToUser actual (le_bytes 8 n) false].
Proof.
  intros Hd Ht Hc r. subst r.
  rewrite (write_memory_transfer k proc vaddr buffer len actual process a region vmo
             NO_ERROR n v) by assumption.
  unfold finish_transfer. rewrite Z.eqb_refl. kernel_simpl. rewrite Hc. kernel_simpl.
  split; [reflexivity|]. split; [apply update_same|]. split; [reflexivity|].
  unfold resolved_events. cbn [app]. rewrite <- !app_assoc. reflexivity.
Qed.

End Transferred.

(** C8 as stated fails: in a read with a null out-parameter the transfer
    from the storage object returns NO_ERROR, yet no count is written to the
    out-parameter and the call returns ERR_INVALID_ARGS. *)
Lemma read_memory_null_actual :
  (ReadUser (k_vmos demo_kernel 7) (k_umem demo_kernel) 0x110
     (object_offset_of 0x1000 demo_region) 4).1 = (NO_ERROR, 4)
  ∧ (run (sys_process_read_memory 10 0x1000 0x110 4 0) demo_kernel).1 = ERR_INVALID_ARGS
  ∧ k_log (run (sys_process_read_memory 10 0x1000 0x110 4 0) demo_kernel).2
    = [EvGetDispatcher 10 READ_WRITE NO_ERROR; EvAspace 2; EvFindRegion 2 0x1000;
       EvRegionVmo 2 0x1000; EvReadUser 7 0x110 0 4 NO_ERROR 4;
       EvCopyToUser 0 (le_bytes 8 4) false]
  ∧ copy_from_user (k_umem (run (sys_process_read_memory 10 0x1000 0x110 4 0)
                              demo_kernel).2) 0 8 = None.
Proof.
  split; [vm_compute; reflexivity|]. split; [vm_compute; reflexivity|].
  split; vm_compute; reflexivity.
Qed.

(** A write through handle 11 with a null out-parameter: the call returns
    ERR_INVALID_ARGS and the first four bytes of storage object 7, zero
    before, are the bytes of the caller's buffer. *)
Lemma write_memory_not_atomic_witness :
  (run (sys_process_write_memory 11 0x1000 0x100 4 0) demo_kernel).1 = ERR_INVALID_ARGS
  ∧ k_vmos (run (sys_process_write_memory 11 0x1000 0x100 4 0) demo_kernel).2 7
    = [171; 172; 173; 174] ++ replicate 12 0
  ∧ k_vmos demo_kernel 7 = replicate 16 0.
Proof.
  assert (0x100 ≠ 0) as Hbuf by discriminate.
  assert (4 ≠ 0) as Hlen0 by discriminate.
  assert (4 ≤ 64 * 1024 * 1024) as Hlen by (vm_compute; discriminate).
  assert (WriteUser (k_vmos demo_kernel 7) (k_umem demo_kernel) 0x100
            (object_offset_of 0x1000 demo_region) 4
          = (NO_ERROR, 4, [171; 172; 173; 174] ++ replicate 12 0)) as Ht
    by (vm_compute; reflexivity).
  assert (copy_to_user (k_umem demo_kernel) 0 (le_bytes 8 4) = None) as Hc
    by (vm_compute; reflexivity).
  destruct (write_memory_not_atomic demo_kernel 11 0x1000 0x100 4 0 2 7 [demo_region]
              demo_region Hbuf Hlen0 Hlen eq_refl eq_refl eq_refl 4
              ([171; 172; 173; 174] ++ replicate 12 0) eq_refl Ht Hc)
    as (Hr & Hv & _).
  split; [exact Hr|]. split; [exact Hv|reflexivity].
Defined.

(** ** Thread state *)

Section ThreadState.

Context {V : Type} `{VmObject V}.

Variable MX_MAX_THREAD_STATE_SIZE : Z.
Variable uninitialised : nat → Z.

Variables (k : Kernel V) (handle state_kind _buffer_ptr _buffer_len thread : Z).
Variables (word bytes : list Z) (st : mx_status_t) (n : Z).

Hypothesis thread_handle :
  get_dispatcher k (k_current k) TThread handle MX_RIGHT_READ = (NO_ERROR, thread).
Hypothesis length_read : copy_from_user (k_umem k) _buffer_len 4 = Some word.
Hypothesis length_bounded : le_value word ≤ MX_MAX_THREAD_STATE_SIZE.
Hypothesis buffer_allocated : le_value word ≤ k_heap k.
Hypothesis reader_result :
  t_ReadState (k_threads k thread) state_kind (le_value word) = (st, bytes, n).

Lemma thread_read_state_after_reader :
  run (sys_thread_read_state MX_MAX_THREAD_STATE_SIZE uninitialised handle state_kind
         _buffer_ptr _buffer_len) k
  = let k1 := records (read_state_events handle _buffer_len word thread state_kind st n) k in
    let out := array_get uninitialised bytes n in
    if (st =? NO_ERROR) || (st =? ERR_BUFFER_TOO_SMALL) then
      match copy_to_user (k_umem k) _buffer_len (le_bytes 4 n) with
      | None => (ERR_INVALID_ARGS, record (EvCopyToUser _buffer_len (le_bytes 4 n) false) k1)
      | Some m =>
          let k2 := record (EvCopyToUser _buffer_len (le_bytes 4 n) true) (set_umem m k1) in
          if st =? NO_ERROR then
            match copy_to_user m _buffer_ptr out with
            | None => (ERR_INVALID_ARGS, record (EvCopyToUser _buffer_ptr out false) k2)
            | Some m' =>
                (NO_ERROR, record (EvCopyToUser _buffer_ptr out true) (set_umem m' k2))
            end
          else (st, k2)
      end
    else (st, k1).
Proof.
  unfold sys_thread_read_state, read_state_events. sys_unfold. kernel_simpl.
  rewrite thread_handle. kernel_simpl. rewrite Z.eqb_refl. kernel_simpl.
  change (Z.to_nat 4) with 4%nat. rewrite length_read. kernel_simpl.
  unfold kMaxThreadStateSize. rewrite (proj2 (Z.ltb_ge _ _) length_bounded).
  kernel_simpl. rewrite (proj2 (Z.leb_le _ _) buffer_allocated). kernel_simpl.
  rewrite reader_result. kernel_simpl.
  destruct (Z.eqb_spec st NO_ERROR) as [->|Hok].
  - kernel_simpl.
    destruct (copy_to_user (k_umem k) _buffer_len (le_bytes 4 n)) as [m|];
      [|reflexivity].
    kernel_simpl. change (NO_ERROR =? NO_ERROR) with true. kernel_simpl.
    destruct (copy_to_user m _buffer_ptr (array_get uninitialised bytes n)) as [m'|];
      reflexivity.
  - kernel_simpl. destruct (Z.eqb_spec st ERR_BUFFER_TOO_SMALL) as [->|Hsmall].
    + kernel_simpl.
      destruct (copy_to_user (k_umem k) _buffer_len (le_bytes 4 n)) as [m|]; reflexivity.
    + reflexivity.
Qed.

(** C6, amended. In a call to [sys_thread_read_state] that passes the handle
    check, reads the length, passes the maximum-length check and gets its
    buffer: a status of the reader other than NO_ERROR and
    ERR_BUFFER_TOO_SMALL is returned with no copy to user memory.  When the
    reader returns NO_ERROR or ERR_BUFFER_TOO_SMALL the length it reports is
    copied to the caller's length out-parameter; if that copy fails the call
    returns ERR_INVALID_ARGS and makes no further copy.  If it succeeds,
    ERR_BUFFER_TOO_SMALL is returned as such, and the out-parameter holds the
    length; on NO_ERROR the [n] bytes at the start of the temporary buffer
    are copied to the caller's buffer, which holds them when the copy
    succeeds, and the call returns ERR_INVALID_ARGS when it fails.  The bytes
    copied are those the reader stored when it stored at least [n], and
    begin with the bytes it stored otherwise. *)
Theorem thread_read_state_reporting :
  let r := run (sys_thread_read_state MX_MAX_THREAD_STATE_SIZE uninitialised handle
                  state_kind _buffer_ptr _buffer_len) k in
  let before := read_state_events handle _buffer_len word thread state_kind st n in
  let out := array_get uninitialised bytes n in
  (st ≠ NO_ERROR → st ≠ ERR_BUFFER_TOO_SMALL → r = (st, records before k))
  ∧ (st = NO_ERROR ∨ st = ERR_BUFFER_TOO_SMALL →
     copy_to_user (k_umem k) _buffer_len (le_bytes 4 n) = None →
     r.1 = ERR_INVALID_ARGS
     ∧ k_log r.2 = k_log k ++ before ++ [EvCopyToUser _buffer_len (le_bytes 4 n) false])
  ∧ (st = ERR_BUFFER_TOO_SMALL →
     ∀ m, copy_to_user (k_umem k) _buffer_len (le_bytes 4 n) = Some m →
          r.1 = ERR_BUFFER_TOO_SMALL ∧ k_umem r.2 = m
          ∧ copy_from_user (k_umem r.2) _buffer_len 4 = Some (le_bytes 4 n))
  ∧ (st = NO_ERROR →
     ∀ m, copy_to_user (k_umem k) _buffer_len (le_bytes 4 n) = Some m →
          (∀ m', copy_to_user m _buffer_ptr out = Some m' →
                 r.1 = NO_ERROR ∧ k_umem r.2 = m'
                 ∧ copy_from_user (k_umem r.2) _buffer_ptr (length out) = Some out)
          ∧ (copy_to_user m _buffer_ptr out = None →
             r.1 = ERR_INVALID_ARGS
             ∧ k_log r.2 = k_log k ++ before
                           ++ [EvCopyToUser _buffer_len (le_bytes 4 n) true;
                               EvCopyToUser _buffer_ptr out false]))
  ∧ ((Z.to_nat n ≤ length bytes)%nat → out = take (Z.to_nat n) bytes)
  ∧ ((length bytes ≤ Z.to_nat n)%nat →
     length out = Z.to_nat n ∧ take (length bytes) out = bytes).
Proof.
  intros r before out. subst r before out. rewrite thread_read_state_after_reader.
  cbv zeta. split; [|split; [|split; [|split; [|split]]]].
  - intros Hok Hsmall.
    rewrite (proj2 (Z.eqb_neq _ _) Hok), (proj2 (Z.eqb_neq _ _) Hsmall). reflexivity.
  - intros Hst Hc. rewrite Hc. unfold read_state_events.
    assert ((st =? NO_ERROR) || (st =? ERR_BUFFER_TOO_SMALL) = true) as ->
      by (destruct Hst as [-> | ->]; reflexivity).
    split; [reflexivity|]. kernel_simpl. rewrite <- !app_assoc. reflexivity.
  - intros -> m Hc. rewrite Hc. change (ERR_BUFFER_TOO_SMALL =? NO_ERROR) with false.
    cbn [orb]. rewrite Z.eqb_refl. kernel_simpl.
    split; [reflexivity|]. split; [reflexivity|].
    apply (copy_to_user_read_back (k_umem k) _buffer_len (le_bytes 4 n) m Hc).
  - intros -> m Hc. rewrite Hc, Z.eqb_refl. cbn [orb]. split.
    + intros m' Hb. rewrite Hb. kernel_simpl.
      split; [reflexivity|]. split; [reflexivity|].
      apply (copy_to_user_read_back m _buffer_ptr _ m' Hb).
    + intros Hb. rewrite Hb. split; [reflexivity|]. unfold read_state_events.
      kernel_simpl. rewrite <- !app_assoc. reflexivity.
  - intros Hn. unfold array_get. rewrite take_app_le by exact Hn. reflexivity.
  - intros Hn. unfold array_get. split.
    + rewrite length_take, length_app, length_fmap, length_seq. lia.
    + rewrite take_take, Nat.min_l by exact Hn.
      rewrite take_app_le by lia. apply take_ge. lia.
Qed.

End ThreadState.

(** Scenario 3 of the specification, with a state of four bytes: a call with
    a length of zero returns ERR_BUFFER_TOO_SMALL and stores 4 in the length;
    the call repeated with that length returns NO_ERROR and copies the four
    bytes of the state. *)
Lemma thread_read_state_reporting_witness :
  let r1 := run (sys_thread_read_state 4096 (λ _, 205) 20 7 0x120 0x128) demo_kernel in
  let r2 := run (sys_thread_read_state 4096 (λ _, 205) 20 7 0x120 0x128) r1.2 in
  r1.1 = ERR_BUFFER_TOO_SMALL
  ∧ copy_from_user (k_umem r1.2) 0x128 4 = Some [4; 0; 0; 0]
  ∧ r2.1 = NO_ERROR
  ∧ copy_from_user (k_umem r2.2) 0x120 4 = Some [1; 2; 3; 4].
Proof.
  intros r1 r2.
  assert (le_value [0; 0; 0; 0] ≤ 4096) as Hmax1 by (vm_compute; discriminate).
  assert (le_value [4; 0; 0; 0] ≤ 4096) as Hmax2 by (vm_compute; discriminate).
  pose (m1 := default ∅ (copy_to_user (k_umem demo_kernel) 0x128 (le_bytes 4 4))).
  assert (copy_to_user (k_umem demo_kernel) 0x128 (le_bytes 4 4) = Some m1) as Hc1
    by (vm_compute; reflexivity).
  destruct (proj1 (proj2 (proj2 (thread_read_state_reporting 4096 (λ _, 205) demo_kernel
                                   20 7 0x120 0x128 5 [0; 0; 0; 0] []
                                   ERR_BUFFER_TOO_SMALL 4
                                   eq_refl eq_refl Hmax1 Hmax1 eq_refl)))
              eq_refl m1 Hc1) as (E1 & _ & L1).
  assert (copy_from_user (k_umem r1.2) 0x128 4 = Some [4; 0; 0; 0]) as Hlen by exact L1.
  pose (m2 := default ∅ (copy_to_user (k_umem r1.2) 0x128 (le_bytes 4 4))).
  assert (copy_to_user (k_umem r1.2) 0x128 (le_bytes 4 4) = Some m2) as Hc2
    by (vm_compute; reflexivity).
  pose (m3 := default ∅ (copy_to_user m2 0x120 (array_get (λ _, 205) [1; 2; 3; 4] 4))).
  assert (copy_to_user m2 0x120 (array_get (λ _, 205) [1; 2; 3; 4] 4) = Some m3) as Hc3
    by (vm_compute; reflexivity).
  destruct (proj1 (proj1 (proj2 (proj2 (proj2 (thread_read_state_reporting 4096 (λ _, 205)
                                          r1.2 20 7 0x120 0x128 5 [4; 0; 0; 0]
                                          [1; 2; 3; 4] NO_ERROR 4
                                          eq_refl Hlen Hmax2 Hmax2 eq_refl))))
                     eq_refl m2 Hc2) m3 Hc3) as (E2 & _ & B2).
  split; [exact E1|]. split; [exact L1|]. split; [exact E2|exact B2].
Defined.

(** C6 as stated fails: with the length in read-only user memory the call
    passes the handle and maximum-length checks and the reader returns
    ERR_BUFFER_TOO_SMALL with a required length of 4, yet the call returns
    ERR_INVALID_ARGS and the length out-parameter still holds 0. *)
Lemma thread_read_state_read_only_length :
  let r := run (sys_thread_read_state 4096 (λ _, 205) 20 7 0x120 0x134) demo_kernel in
  get_dispatcher demo_kernel (k_current demo_kernel) TThread 20 MX_RIGHT_READ = (NO_ERROR, 5)
  ∧ copy_from_user (k_umem demo_kernel) 0x134 4 = Some [0; 0; 0; 0]
  ∧ le_value [0; 0; 0; 0] ≤ 4096
  ∧ t_ReadState (k_threads demo_kernel 5) 7 0 = (ERR_BUFFER_TOO_SMALL, [], 4)
  ∧ r.1 = ERR_INVALID_ARGS
  ∧ r.1 ≠ ERR_BUFFER_TOO_SMALL
  ∧ copy_from_user (k_umem r.2) 0x134 4 = Some [0; 0; 0; 0]
  ∧ k_log r.2 = [EvGetDispatcher 20 MX_RIGHT_READ NO_ERROR; EvCopyFromUser 0x134 4 true;
                 EvAlloc 0 true; EvReadState 5 7 0 ERR_BUFFER_TOO_SMALL 4;
                 EvCopyToUser 0x134 [4; 0; 0; 0] false].
Proof.
  cbv zeta. split; [reflexivity|]. split; [vm_compute; reflexivity|].
  split; [vm_compute; discriminate|].
  split; [reflexivity|]. split; [vm_compute; reflexivity|].
  split; [vm_compute; discriminate|]. split; vm_compute; reflexivity.
Qed.

(** ** Write then read *)

Lemma get_dispatcher_weaken {V : Type} (k : Kernel V) (up proc process : Z) :
  get_dispatcher k up TProcess proc READ_WRITE = (NO_ERROR, process) →
  get_dispatcher k up TProcess proc MX_RIGHT_WRITE = (NO_ERROR, process).
Proof.
  unfold get_dispatcher.
  destruct (p_handles (k_processes k up) !! proc) as [h|]; [|discriminate].
  destruct (DownCastDispatcher TProcess (h_dispatcher h)) as [koid|]; [|discriminate].
  destruct (magenta_rights_check (h_rights h) READ_WRITE) eqn:Er; [|discriminate].
  rewrite (rights_check_weaken _ Er). auto.
Qed.

Lemma object_offset_nonneg (vaddr : Z) (region : VmRegion) :
  0 ≤ object_offset_of vaddr region.
Proof. unfold object_offset_of, wrap64. apply Z.mod_pos_bound. reflexivity. Qed.

Lemma trim_range_inside (size offset len : Z) :
  0 ≤ len → offset + len ≤ size → trim_range size offset len = len.
Proof. unfold trim_range. lia. Qed.

(** The bytes of a storage object after [bs] was stored at [offset]. *)
Lemma splice_length (v bs : list Z) (offset : nat) :
  (offset + length bs ≤ length v)%nat →
  length (take offset v ++ bs ++ drop (offset + length bs) v) = length v.
Proof.
  intros Hin. rewrite !length_app, length_take, length_drop. lia.
Qed.

Lemma splice_read (v bs : list Z) (offset : nat) :
  (offset + length bs ≤ length v)%nat →
  take (length bs) (drop offset (take offset v ++ bs ++ drop (offset + length bs) v)) = bs.
Proof.
  intros Hin.
  rewrite drop_app_length' by (rewrite length_take; lia).
  rewrite take_app_length. reflexivity.
Qed.

Lemma bytes_WriteUser_inside (v : list Z) (m : gmap Z ucell) (ptr offset len : Z)
    (bs : list Z) :
  0 ≤ offset → 0 ≤ len → offset + len ≤ Z.of_nat (length v) →
  copy_from_user m ptr (Z.to_nat len) = Some bs →
  bytes_WriteUser v m ptr offset len
  = (NO_ERROR, len,
     take (Z.to_nat offset) v ++ bs ++ drop (Z.to_nat offset + length bs) v).
Proof.
  intros Hoff Hlen Hin Hc. unfold bytes_WriteUser.
  rewrite (trim_range_inside _ _ _ Hlen Hin), Hc.
  rewrite (copy_from_user_length _ _ _ _ Hc), Z2Nat.inj_add by lia. reflexivity.
Qed.

Lemma bytes_ReadUser_spliced (v bs : list Z) (m m' : gmap Z ucell) (ptr offset len : Z) :
  0 ≤ offset → 0 ≤ len → offset + len ≤ Z.of_nat (length v) →
  length bs = Z.to_nat len →
  copy_to_user m ptr bs = Some m' →
  bytes_ReadUser (take (Z.to_nat offset) v ++ bs ++ drop (Z.to_nat offset + length bs) v)
                 m ptr offset len
  = (NO_ERROR, len, m').
Proof.
  intros Hoff Hlen Hin Hbs Hc. unfold bytes_ReadUser.
  rewrite splice_length by lia. rewrite (trim_range_inside _ _ _ Hlen Hin).
  rewrite <- Hbs. rewrite splice_read by lia. rewrite Hc. reflexivity.
Qed.

Section RoundTrip.

Variables (k : Kernel (list Z)) (proc vaddr src dst len actual_w actual_r process vmo : Z).
Variables (a : list VmRegion) (region : VmRegion) (bs : list Z).

Hypothesis src_not_null : src ≠ 0.
Hypothesis dst_not_null : dst ≠ 0.
Hypothesis len_positive : 0 < len.
Hypothesis len_in_block : len ≤ 64 * 1024 * 1024.
Hypothesis target_handle :
  get_dispatcher k (k_current k) TProcess proc READ_WRITE = (NO_ERROR, process).
Hypothesis target_aspace : p_aspace (k_processes k process) = Some a.
Hypothesis target_region : FindRegion a vaddr = Some region.
Hypothesis target_vmo : r_vmo region = Some vmo.
Hypothesis inside_object :
  object_offset_of vaddr region + len ≤ Z.of_nat (length (k_vmos k vmo)).
Hypothesis src_bytes : copy_from_user (k_umem k) src (Z.to_nat len) = Some bs.
Hypothesis actual_w_writable : user_writable (k_umem k) actual_w 8 = true.
Hypothesis dst_writable : user_writable (k_umem k) dst (Z.to_nat len) = true.
Hypothesis actual_r_writable : user_writable (k_umem k) actual_r 8 = true.
Hypothesis actual_r_apart : actual_r + 8 ≤ dst ∨ dst + len ≤ actual_r.
Hypothesis caller_apart : maps_object (k_processes k (k_current k)) vmo = false.

(** C2, amended. Through a handle that carries READ and WRITE, for a target
    with a region that contains [vaddr] and is backed by a storage object
    that holds the [len] bytes at the resolved offset and that the caller's
    own address space does not map (so that the target is not the caller, and
    the caller's buffers and out-parameters are no part of the object), with
    0 < len <= 64 MiB, a readable source buffer, a writable destination
    buffer and writable out-parameters (that of the read apart from the
    destination buffer): [sys_process_write_memory] of the [len] bytes at
    [vaddr] followed by [sys_process_read_memory] of [len] bytes at [vaddr]
    both return NO_ERROR, both report [len] bytes, and the destination buffer
    holds the bytes that were written. *)
Theorem write_then_read_round_trip :
  let w := run (sys_process_write_memory proc vaddr src len actual_w) k in
  let r := run (sys_process_read_memory proc vaddr dst len actual_r) w.2 in
  w.1 = NO_ERROR
  ∧ r.1 = NO_ERROR
  ∧ copy_from_user (k_umem w.2) actual_w 8 = Some (le_bytes 8 len)
  ∧ copy_from_user (k_umem r.2) actual_r 8 = Some (le_bytes 8 len)
  ∧ copy_from_user (k_umem r.2) dst (Z.to_nat len) = Some bs
  ∧ process ≠ k_current k.
Proof.
  pose proof (object_offset_nonneg vaddr region) as Hoff.
  pose proof (copy_from_user_length _ _ _ _ src_bytes) as Hbs.
  assert (len ≠ 0) as Hlen0 by lia.
  assert (0 ≤ len) as Hlen by lia.
  set (v' := take (Z.to_nat (object_offset_of vaddr region)) (k_vmos k vmo) ++ bs
             ++ drop (Z.to_nat (object_offset_of vaddr region) + length bs) (k_vmos k vmo)).
  (* the write *)
  assert (WriteUser (k_vmos k vmo) (k_umem k) src (object_offset_of vaddr region) len
          = (NO_ERROR, len, v')) as Hwrite
    by (apply bytes_WriteUser_inside; assumption).
  destruct (copy_to_user_writable (k_umem k) actual_w (le_bytes 8 len) actual_w_writable)
    as [m1 Hm1].
  intros w.
  assert (w = (NO_ERROR,
               record (EvCopyToUser actual_w (le_bytes 8 len) true)
                 (set_umem m1
                    (records (resolved_events proc process vaddr MX_RIGHT_WRITE
                              ++ [EvWriteUser vmo src (object_offset_of vaddr region) len
                                    NO_ERROR len])
                       (set_vmos (update (k_vmos k) vmo v') k))))) as Hw.
  { subst w.
    rewrite (write_memory_transfer k proc vaddr src len actual_w process a region vmo
               NO_ERROR len v' src_not_null Hlen0 len_in_block
               (get_dispatcher_weaken _ _ _ _ target_handle)
               target_aspace target_region target_vmo Hwrite).
    unfold finish_transfer. rewrite Z.eqb_refl. kernel_simpl. rewrite Hm1. reflexivity. }
  clearbody w. subst w. cbn [fst snd].
  set (k1 := record _ _).
  (* the read *)
  assert (user_writable m1 dst (Z.to_nat len) = true) as Hdst1
    by (eapply copy_to_user_keeps_writable; eassumption).
  rewrite <- Hbs in Hdst1.
  destruct (copy_to_user_writable m1 dst bs Hdst1) as [m2 Hm2].
  assert (ReadUser (k_vmos k1 vmo) (k_umem k1) dst (object_offset_of vaddr region) len
          = (NO_ERROR, len, m2)) as Hread.
  { change (k_vmos k1 vmo) with (update (k_vmos k) vmo v' vmo).
    change (k_umem k1) with m1. rewrite update_same.
    apply bytes_ReadUser_spliced; assumption. }
  assert (user_writable m2 actual_r 8 = true) as Hact2.
  { eapply copy_to_user_keeps_writable; [exact Hm2|].
    eapply copy_to_user_keeps_writable; eassumption. }
  destruct (copy_to_user_writable m2 actual_r (le_bytes 8 len) Hact2) as [m3 Hm3].
  set (r := run (sys_process_read_memory proc vaddr dst len actual_r) k1).
  assert (r.1 = NO_ERROR ∧ k_umem r.2 = m3) as [Hr1 Hr2].
  { subst r.
    rewrite (read_memory_transfer k1 proc vaddr dst len actual_r process a region vmo
               NO_ERROR len m2 dst_not_null Hlen0 len_in_block
               target_handle target_aspace target_region target_vmo Hread).
    unfold finish_transfer. rewrite Z.eqb_refl. kernel_simpl. rewrite Hm3.
    split; reflexivity. }
  rewrite Hr1, Hr2. split; [reflexivity|]. split; [reflexivity|].
  split; [|split; [|split]].
  - apply (copy_to_user_read_back (k_umem k) actual_w (le_bytes 8 len) m1 Hm1).
  - apply (copy_to_user_read_back m2 actual_r (le_bytes 8 len) m3 Hm3).
  - rewrite (copy_from_user_ext m2 m3).
    + rewrite <- Hbs. apply (copy_to_user_read_back m1 dst bs m2 Hm2).
    + intros addr Haddr. apply (copy_to_user_outside m2 actual_r (le_bytes 8 len) m3 addr Hm3).
      change (Z.of_nat (length (le_bytes 8 len))) with 8. lia.
  - intros Hself. pose proof caller_apart as Hapart. unfold maps_object in Hapart.
    rewrite <- Hself, target_aspace in Hapart.
    apply FindRegion_some in target_region as [Hin _].
    apply not_true_iff_false in Hapart. apply Hapart.
    apply existsb_exists. exists region. split; [apply list_elem_of_In, Hin|].
    rewrite target_vmo. apply Z.eqb_refl.
Qed.

End RoundTrip.

(** Four bytes written to process 2 at 0x1000 and read back, and scenario 1
    of the specification: 4096 bytes of 0xAB written at 0x1000 and read
    back. *)
Lemma write_then_read_round_trip_witness :
  (let w := run (sys_process_write_memory 10 0x1000 0x100 4 0x108) demo_kernel in
   let r := run (sys_process_read_memory 10 0x1000 0x110 4 0x118) w.2 in
   w.1 = NO_ERROR
   ∧ r.1 = NO_ERROR
   ∧ copy_from_user (k_umem w.2) 0x108 8 = Some (le_bytes 8 4)
   ∧ copy_from_user (k_umem r.2) 0x118 8 = Some (le_bytes 8 4)
   ∧ copy_from_user (k_umem r.2) 0x110 (Z.to_nat 4) = Some [171; 172; 173; 174]
   ∧ 2 ≠ k_current demo_kernel)
  ∧ (let w := run (sys_process_write_memory 10 0x1000 0x10000 4096 0x30000) page_kernel in
     let r := run (sys_process_read_memory 10 0x1000 0x20000 4096 0x30008) w.2 in
     w.1 = NO_ERROR
     ∧ r.1 = NO_ERROR
     ∧ copy_from_user (k_umem w.2) 0x30000 8 = Some (le_bytes 8 4096)
     ∧ copy_from_user (k_umem r.2) 0x30008 8 = Some (le_bytes 8 4096)
     ∧ copy_from_user (k_umem r.2) 0x20000 (Z.to_nat 4096) = Some (replicate 4096 0xAB)
     ∧ 2 ≠ k_current page_kernel).
Proof.
  split.
  - assert (0x100 ≠ 0) as Hsrc by discriminate.
    assert (0x110 ≠ 0) as Hdst by discriminate.
    assert (0 < 4) as Hpos by reflexivity.
    assert (4 ≤ 64 * 1024 * 1024) as Hlen by (vm_compute; discriminate).
    assert (object_offset_of 0x1000 demo_region + 4
            ≤ Z.of_nat (length (k_vmos demo_kernel 7))) as Hin
      by (vm_compute; discriminate).
    assert (copy_from_user (k_umem demo_kernel) 0x100 (Z.to_nat 4)
            = Some [171; 172; 173; 174]) as Hbs by (vm_compute; reflexivity).
    assert (user_writable (k_umem demo_kernel) 0x108 8 = true) as Hw1
      by (vm_compute; reflexivity).
    assert (user_writable (k_umem demo_kernel) 0x110 (Z.to_nat 4) = true) as Hw2
      by (vm_compute; reflexivity).
    assert (user_writable (k_umem demo_kernel) 0x118 8 = true) as Hw3
      by (vm_compute; reflexivity).
    assert (0x118 + 8 ≤ 0x110 ∨ 0x110 + 4 ≤ 0x118) as Hapart
      by (right; vm_compute; discriminate).
    exact (write_then_read_round_trip demo_kernel 10 0x1000 0x100 0x110 4 0x108 0x118 2 7
             [demo_region] demo_region [171; 172; 173; 174]
             Hsrc Hdst Hpos Hlen eq_refl eq_refl eq_refl eq_refl Hin Hbs Hw1 Hw2 Hw3 Hapart
             eq_refl).
  - apply (write_then_read_round_trip page_kernel 10 0x1000 0x10000 0x20000 4096 0x30000
             0x30008 2 7 [MkRegion 0x1000 4096 0 (Some 7)] (MkRegion 0x1000 4096 0 (Some 7))
             (replicate 4096 0xAB));
      try (vm_compute; (reflexivity || discriminate)).
    right. vm_compute. discriminate.
Defined.

(** C2 as stated fails.  Handle 11 carries WRITE only: the write of four
    bytes succeeds and the read that follows is refused, the destination
    buffer keeps its zeros.  A sequence of length zero is refused by both
    calls.  At 0x100C, inside the region, eight bytes do not fit in the
    storage object: write and read both transfer four bytes only, and the
    destination buffer holds 171, 172, 173, 174 followed by its old zeros
    where the source holds 175, 176, 177, 178. *)
Lemma write_then_read_not_round_trip :
  (let w := run (sys_process_write_memory 11 0x1000 0x100 4 0x108) demo_kernel in
   let r := run (sys_process_read_memory 11 0x1000 0x110 4 0x118) w.2 in
   magenta_rights_check MX_RIGHT_WRITE MX_RIGHT_WRITE = true
   ∧ FindRegion [demo_region] 0x1000 = Some demo_region
   ∧ w.1 = NO_ERROR
   ∧ r.1 = ERR_ACCESS_DENIED
   ∧ copy_from_user (k_umem r.2) 0x110 4 = Some [0; 0; 0; 0])
  ∧ (run (sys_process_write_memory 10 0x1000 0x100 0 0x108) demo_kernel).1
    = ERR_INVALID_ARGS
  ∧ (let w := run (sys_process_write_memory 10 0x100C 0x100 8 0x108) demo_kernel in
     let r := run (sys_process_read_memory 10 0x100C 0x110 8 0x118) w.2 in
     FindRegion [demo_region] 0x100C = Some demo_region
     ∧ w.1 = NO_ERROR
     ∧ r.1 = NO_ERROR
     ∧ copy_from_user (k_umem r.2) 0x118 8 = Some (le_bytes 8 4)
     ∧ copy_from_user (k_umem demo_kernel) 0x100 8
       = Some [171; 172; 173; 174; 175; 176; 177; 178]
     ∧ copy_from_user (k_umem r.2) 0x110 8 = Some [171; 172; 173; 174; 0; 0; 0; 0]).
Proof.
  cbv zeta. repeat split; vm_compute; reflexivity.
Qed.

(** * Further properties *)

(** ** The bootloader framebuffer *)

Section DisplayProperties.

Variables (F565 Fx888 F8888 F332 F2220 Fmono1 Fmono8 FLAG : Z).

Lemma known_format_decide (format : Z) :
  format ∈ [F565; Fx888; F8888; F332; F2220; Fmono1; Fmono8] ↔
  ((format =? F565) = true
   ∨ (format =? Fx888) || (format =? F8888) = true
   ∨ (format =? F332) || (format =? F2220) || (format =? Fmono1) || (format =? Fmono8)
     = true).
Proof.
  rewrite !orb_true_iff, !Z.eqb_eq, !elem_of_cons, elem_of_nil. tauto.
Qed.

(** X1. Init fails only on a format reported by the bootloader that is none of
    the seven formats of the switch; without bootloader information it
    succeeds.  When it fails the pixel size of the caller's record is left as
    it was, while format, width, height, stride and flags have been
    overwritten. *)
Theorem Init_failure fb di :
  let r := BootloaderDisplay.Init F565 Fx888 F8888 F332 F2220 Fmono1 Fmono8 FLAG fb di in
  (r.1 = false ↔
   ∃ format width height stride,
     fb = Some (format, width, height, stride)
     ∧ format ∉ [F565; Fx888; F8888; F332; F2220; Fmono1; Fmono8])
  ∧ (r.1 = false →
     di_pixelsize r.2 = di_pixelsize di
     ∧ di_flags r.2 = FLAG
     ∧ ∀ format width height stride,
         fb = Some (format, width, height, stride) →
         r.2 = MkDisplayInfo format width height stride (di_pixelsize di) FLAG).
Proof.
  intros r. subst r.
  assert (∀ format w h s pz fl,
            let d := MkDisplayInfo format w h s pz fl in
            (BootloaderDisplay.Init F565 Fx888 F8888 F332 F2220 Fmono1 Fmono8 FLAG
               (Some (format, w, h, s)) di).1 = false
            ↔ format ∉ [F565; Fx888; F8888; F332; F2220; Fmono1; Fmono8]) as Hsome.
  { intros format w h s _ _ _. rewrite known_format_decide.
    unfold BootloaderDisplay.Init.
    cbn [di_format di_width di_height di_stride di_pixelsize di_flags].
    destruct (format =? F565); [cbn; intuition discriminate|].
    destruct ((format =? Fx888) || (format =? F8888)); [cbn; intuition discriminate|].
    destruct ((format =? F332) || (format =? F2220) || (format =? Fmono1)
              || (format =? Fmono8)); cbn; intuition discriminate. }
  split.
  - destruct fb as [[[[format width] height] stride]|].
    + rewrite (Hsome format width height stride 0 0). split.
      * intros Hno. exists format, width, height, stride. auto.
      * intros (f & w & h & s & [= <- <- <- <-] & Hno). exact Hno.
    + split; [|intros (f & w & h & s & [=] & _)].
      unfold BootloaderDisplay.Init.
      cbn [di_format di_width di_height di_stride di_pixelsize di_flags].
      rewrite Z.eqb_refl. discriminate.
  - unfold BootloaderDisplay.Init.
    destruct fb as [[[[format width] height] stride]|];
      cbn [di_format di_width di_height di_stride di_pixelsize di_flags].
    + destruct (format =? F565); [discriminate|].
      destruct ((format =? Fx888) || (format =? F8888)); [discriminate|].
      destruct ((format =? F332) || (format =? F2220) || (format =? Fmono1)
                || (format =? Fmono8)); [discriminate|].
      intros _. cbn. split; [reflexivity|]. split; [reflexivity|].
      intros f w h s [= <- <- <- <-]. reflexivity.
    + rewrite Z.eqb_refl. discriminate.
Qed.

(** X2. With pairwise distinct format constants (as the labels of a switch are),
    a successful Init reports the mode of the bootloader, or 1280 x 850 with
    a stride of 1280 in RGB 565 when there is none, sets the hardware
    framebuffer flag, and sets the pixel size to 2 for RGB 565, to 4 for
    RGB x888 and ARGB 8888 and to 1 for the other known formats. *)
Theorem Init_success fb di :
  NoDup [F565; Fx888; F8888; F332; F2220; Fmono1; Fmono8] →
  let r := BootloaderDisplay.Init F565 Fx888 F8888 F332 F2220 Fmono1 Fmono8 FLAG fb di in
  r.1 = true →
  (di_format r.2, di_width r.2, di_height r.2, di_stride r.2)
  = default (F565, 1280, 850, 1280) fb
  ∧ di_flags r.2 = FLAG
  ∧ (di_format r.2 = F565 → di_pixelsize r.2 = 2)
  ∧ (di_format r.2 ∈ [Fx888; F8888] → di_pixelsize r.2 = 4)
  ∧ (di_format r.2 ∈ [F332; F2220; Fmono1; Fmono8] → di_pixelsize r.2 = 1).
Proof.
  intros Hdistinct r Hok.
  assert (∀ x, x ∈ [Fx888; F8888; F332; F2220; Fmono1; Fmono8] → x ≠ F565) as H565.
  { intros x Hx ->. apply NoDup_cons in Hdistinct as [Hnot _]. exact (Hnot Hx). }
  assert (∀ x, x ∈ [F332; F2220; Fmono1; Fmono8] → x ≠ Fx888 ∧ x ≠ F8888) as H888.
  { apply NoDup_cons in Hdistinct as [_ Hd]. apply NoDup_cons in Hd as [Hx Hd].
    apply NoDup_cons in Hd as [Ha _]. intros x Hin. split; intros ->.
    - apply Hx. apply elem_of_cons. right. exact Hin.
    - exact (Ha Hin). }
  subst r. revert Hok. unfold BootloaderDisplay.Init.
  set (d := match fb with
            | Some (format, width, height, stride) =>
                MkDisplayInfo format width height stride (di_pixelsize di) (di_flags di)
            | None => MkDisplayInfo F565 (2560 / 2) (1700 / 2) (2560 / 2)
                                    (di_pixelsize di) (di_flags di)
            end).
  assert ((di_format d, di_width d, di_height d, di_stride d)
          = default (F565, 1280, 850, 1280) fb) as Hmode.
  { subst d. destruct fb as [[[[format width] height] stride]|]; reflexivity. }
  cbn [di_format di_width di_height di_stride di_pixelsize di_flags].
  destruct (Z.eqb_spec (di_format d) F565) as [E565|N565].
  - intros _. cbn [fst snd di_format di_width di_height di_stride di_pixelsize di_flags].
    split; [exact Hmode|]. split; [reflexivity|]. split; [reflexivity|].
    split; intros Hin; exfalso.
    + apply (H565 (di_format d)); [|exact E565].
      apply elem_of_cons in Hin as [->|Hin]; [apply list_elem_of_here|].
      apply list_elem_of_further. apply elem_of_cons in Hin as [->|Hin];
        [apply list_elem_of_here|]. apply elem_of_nil in Hin. destruct Hin.
    + apply (H565 (di_format d)); [|exact E565].
      do 2 apply list_elem_of_further. exact Hin.
  - destruct ((di_format d =? Fx888) || (di_format d =? F8888)) eqn:E888.
    + intros _. cbn [fst snd di_format di_width di_height di_stride di_pixelsize di_flags].
      split; [exact Hmode|]. split; [reflexivity|]. split; [intros E; contradiction|].
      split; [reflexivity|]. intros Hin. exfalso.
      apply orb_true_iff in E888. rewrite !Z.eqb_eq in E888.
      destruct (H888 _ Hin) as [Hx Ha]. tauto.
    + destruct ((di_format d =? F332) || (di_format d =? F2220) || (di_format d =? Fmono1)
                || (di_format d =? Fmono8)) eqn:E1; [|discriminate].
      intros _. cbn [fst snd di_format di_width di_height di_stride di_pixelsize di_flags].
      split; [exact Hmode|]. split; [reflexivity|]. split; [intros E; contradiction|].
      split; [|reflexivity]. intros Hin. exfalso.
      apply orb_false_iff in E888 as [Ex Ea]. apply Z.eqb_neq in Ex, Ea.
      rewrite !elem_of_cons, elem_of_nil in Hin. tauto.
Qed.

End DisplayProperties.

(** With the formats numbered 1 to 7: an ARGB 8888 mode of 1920 x 1080 is
    accepted with a pixel size of 4. *)
Lemma Init_success_witness :
  di_pixelsize (BootloaderDisplay.Init 1 5 4 2 3 6 7 1 (Some (4, 1920, 1080, 1920))
                  (MkDisplayInfo 0 0 0 0 0 0)).2 = 4.
Proof.
  assert (NoDup [1; 5; 4; 2; 3; 6; 7]) as Hdistinct
    by (repeat (apply NoDup_cons; split;
                [rewrite ?elem_of_cons, elem_of_nil; intros Hin; intuition discriminate|]);
        apply NoDup_nil; exact I).
  refine (proj1 (proj2 (proj2 (proj2 (Init_success 1 5 4 2 3 6 7 1
                                        (Some (4, 1920, 1080, 1920))
                                        (MkDisplayInfo 0 0 0 0 0 0) Hdistinct eq_refl)))) _).
  apply list_elem_of_further, list_elem_of_here.
Defined.

(** ** The debug console, any length *)

Section ConsoleMore.

Context {V : Type} `{VmObject V}.

Implicit Types (k : Kernel V).

(** X3. [sys_debug_write] copies min(len, 256) bytes from the caller.  If the
    copy succeeds it appends exactly these bytes to the console and returns
    their number; if the copy fails it returns ERR_INVALID_ARGS and appends
    nothing.  In both cases user memory, storage objects, handle tables and
    the trace log are as before. *)
Theorem debug_write_result k ptr len :
  0 ≤ len →
  let n := Z.min len 256 in
  let r := run (sys_debug_write ptr len) k in
  match copy_from_user (k_umem k) ptr (Z.to_nat n) with
  | Some buf =>
      r.1 = n ∧ k_console r.2 = k_console k ++ buf ∧ Z.of_nat (length buf) = r.1
  | None => r.1 = ERR_INVALID_ARGS ∧ k_console r.2 = k_console k
  end
  ∧ k_umem r.2 = k_umem k ∧ k_vmos r.2 = k_vmos k
  ∧ k_processes r.2 = k_processes k ∧ k_ktrace r.2 = k_ktrace k.
Proof.
  intros Hlen n r. subst r.
  assert ((if kMaxDebugWriteSize <? len then kMaxDebugWriteSize else len) = n) as Hn.
  { subst n. unfold kMaxDebugWriteSize. destruct (Z.ltb_spec 256 len); lia. }
  unfold sys_debug_write. rewrite Hn. sys_unfold.
  destruct (copy_from_user (k_umem k) ptr (Z.to_nat n)) as [buf|] eqn:Hbuf.
  - rewrite dputc_loop_appends. kernel_simpl.
    repeat split. rewrite (copy_from_user_length _ _ _ _ Hbuf). subst n. lia.
  - kernel_simpl. repeat split.
Qed.

End ConsoleMore.

(** A write of the three bytes "ls\0" at 0x100 returns 3; a write of no byte
    from the null pointer returns 0. *)
Lemma debug_write_result_witness :
  (run (sys_debug_write 0x100 3) io_kernel).1 = 3
  ∧ k_console (run (sys_debug_write 0x100 3) io_kernel).2 = [108; 115; 0]
  ∧ (run (sys_debug_write 0 0) io_kernel).1 = 0.
Proof.
  pose proof (debug_write_result io_kernel 0x100 3 ltac:(discriminate)) as [H3 _].
  pose proof (debug_write_result io_kernel 0 0 ltac:(discriminate)) as [H0 _].
  change (copy_from_user (k_umem io_kernel) 0x100 (Z.to_nat (Z.min 3 256)))
    with (Some [108; 115; 0]) in H3.
  change (copy_from_user (k_umem io_kernel) 0 (Z.to_nat (Z.min 0 256)))
    with (Some (@nil Z)) in H0.
  destruct H3 as (R3 & C3 & _). destruct H0 as (R0 & _).
  split; [exact R3|]. split; [exact C3|exact R0].
Defined.

(** ** Handle transfer, the rest of the function *)

Lemma fresh_value_above (t : gmap Z Handle) (v : Z) :
  is_Some (t !! v) → v < fresh_value t.
Proof.
  unfold fresh_value.
  assert (∀ v, is_Some (t !! v) → v ≤ map_fold (λ v _ acc, Z.max v acc) 0 t) as Hmax.
  { apply (map_fold_weak_ind
             (λ r (m : gmap Z Handle), ∀ v, is_Some (m !! v) → v ≤ r)).
    - intros w [x Hx]. rewrite lookup_empty in Hx. discriminate.
    - intros i x m r Hi IH w Hw. destruct (decide (w = i)) as [->|Hne]; [lia|].
      rewrite lookup_insert_ne in Hw by auto. specialize (IH w Hw). lia. }
  intros Hv. specialize (Hmax v Hv). lia.
Qed.

Lemma fresh_value_unused (t : gmap Z Handle) : t !! fresh_value t = None.
Proof.
  destruct (t !! fresh_value t) as [h|] eqn:E; [|reflexivity].
  pose proof (fresh_value_above t (fresh_value t) (mk_is_Some _ _ E)). lia.
Qed.

Lemma fresh_value_positive (t : gmap Z Handle) : 0 < fresh_value t.
Proof.
  unfold fresh_value.
  assert (0 ≤ map_fold (λ v _ acc, Z.max v acc) 0 t); [|lia].
  apply (map_fold_weak_ind (λ r (m : gmap Z Handle), 0 ≤ r)); [lia|]. intros. lia.
Qed.

Section TransferMore.

Context {V : Type} `{VmObject V}.

Implicit Types (k : Kernel V).

(** The state after a transfer that goes through (lines 128-134). *)
Lemma transfer_handle_moved k proc src_handle process h :
  get_dispatcher k (k_current k) TProcess proc READ_WRITE = (NO_ERROR, process) →
  process ≠ k_current k →
  p_handles (k_processes k (k_current k)) !! src_handle = Some h →
  let up := k_current k in
  let tu := k_processes k up in
  let tp := k_processes k process in
  let v := fresh_value (p_handles tp) in
  run (sys_debug_transfer_handle proc src_handle) k
  = (v,
     records [EvGetDispatcher proc READ_WRITE NO_ERROR; EvRemoveHandle src_handle true;
              EvAddHandle process v]
       (set_processes
          (update
             (update (k_processes k) up
                (MkProcess (delete src_handle (p_handles tu)) (p_aspace tu)))
             process (MkProcess (<[v := h]> (p_handles tp)) (p_aspace tp)))
          k)).
Proof.
  intros Hd Hne Hsrc up tu tp v. subst up tu tp v.
  unfold sys_debug_transfer_handle. sys_unfold. kernel_simpl.
  fold READ_WRITE. rewrite Hd. kernel_simpl. rewrite Z.eqb_refl. kernel_simpl.
  rewrite (proj2 (Z.eqb_neq _ _) Hne). kernel_simpl. rewrite Hsrc. kernel_simpl.
  rewrite (update_other _ _ _ _ Hne). reflexivity.
Qed.

(** X4. A transfer that goes through moves the handle: the value returned is
    positive and was not in use in the target's table; afterwards it refers
    there to the same object with the same rights, the source value is gone
    from the caller's table, and every other entry of every table is as
    before. *)
Theorem transfer_handle_moves k proc src_handle process h :
  get_dispatcher k (k_current k) TProcess proc READ_WRITE = (NO_ERROR, process) →
  process ≠ k_current k →
  p_handles (k_processes k (k_current k)) !! src_handle = Some h →
  let r := run (sys_debug_transfer_handle proc src_handle) k in
  0 < r.1
  ∧ p_handles (k_processes k process) !! r.1 = None
  ∧ p_handles (k_processes r.2 process) !! r.1 = Some h
  ∧ p_handles (k_processes r.2 (k_current k)) !! src_handle = None
  ∧ (∀ w, w ≠ r.1 →
          p_handles (k_processes r.2 process) !! w = p_handles (k_processes k process) !! w)
  ∧ (∀ w, w ≠ src_handle →
          p_handles (k_processes r.2 (k_current k)) !! w
          = p_handles (k_processes k (k_current k)) !! w)
  ∧ (∀ j, j ≠ k_current k → j ≠ process → k_processes r.2 j = k_processes k j)
  ∧ (∀ j, p_aspace (k_processes r.2 j) = p_aspace (k_processes k j)).
Proof.
  intros Hd Hne Hsrc r. subst r.
  rewrite (transfer_handle_moved k proc src_handle process h Hd Hne Hsrc).
  kernel_simpl. rewrite update_same.
  assert (k_current k ≠ process) as Hne' by auto.
  rewrite (update_other _ _ _ _ Hne'), update_same. cbn [p_handles p_aspace].
  split; [apply fresh_value_positive|]. split; [apply fresh_value_unused|].
  split; [apply lookup_insert_eq|]. split; [apply lookup_delete_eq|].
  split; [intros w Hw; apply lookup_insert_ne; auto|].
  split; [intros w Hw; apply lookup_delete_ne; auto|].
  split.
  - intros j Hj Hjp. rewrite !update_other by auto. reflexivity.
  - intros j. unfold update. destruct (j =? process) eqn:Ep.
    + apply Z.eqb_eq in Ep. subst j. reflexivity.
    + destruct (j =? k_current k) eqn:Eu; [|reflexivity].
      apply Z.eqb_eq in Eu. subst j. reflexivity.
Qed.

(** X5. A call of [sys_debug_transfer_handle] that does not return a positive
    value has moved nothing: every handle table is as before.  This covers a
    target handle that does not resolve, a transfer to the caller itself and
    a source value that is not in the caller's table (ERR_BAD_HANDLE). *)
Theorem transfer_handle_failure_keeps_tables k proc src_handle :
  let r := run (sys_debug_transfer_handle proc src_handle) k in
  (r.1 ≤ 0 → k_processes r.2 = k_processes k)
  ∧ (∀ process,
       get_dispatcher k (k_current k) TProcess proc READ_WRITE = (NO_ERROR, process) →
       process ≠ k_current k →
       p_handles (k_processes k (k_current k)) !! src_handle = None →
       r.1 = ERR_BAD_HANDLE).
Proof.
  intros r. subst r.
  destruct (get_dispatcher k (k_current k) TProcess proc READ_WRITE) as [st process] eqn:Hd.
  destruct (Z.eqb_spec st NO_ERROR) as [->|Hst].
  - destruct (Z.eqb_spec process (k_current k)) as [->|Hne].
    + assert (run (sys_debug_transfer_handle proc src_handle) k
              = (ERR_INVALID_ARGS, record (EvGetDispatcher proc READ_WRITE NO_ERROR) k))
        as ->.
      { unfold sys_debug_transfer_handle. sys_unfold. kernel_simpl.
        fold READ_WRITE. rewrite Hd. kernel_simpl. rewrite Z.eqb_refl. kernel_simpl.
        rewrite Z.eqb_refl. reflexivity. }
      split; [reflexivity|]. intros p [= <-] Hne. contradiction.
    + destruct (p_handles (k_processes k (k_current k)) !! src_handle) as [h|] eqn:Hsrc.
      * rewrite (transfer_handle_moved k proc src_handle process h Hd Hne Hsrc).
        cbn [fst]. pose proof (fresh_value_positive (p_handles (k_processes k process))).
        split; [lia|]. intros p _ _ [=].
      * assert (run (sys_debug_transfer_handle proc src_handle) k
                = (ERR_BAD_HANDLE,
                   records [EvGetDispatcher proc READ_WRITE NO_ERROR;
                            EvRemoveHandle src_handle false] k)) as ->.
        { unfold sys_debug_transfer_handle. sys_unfold. kernel_simpl.
          fold READ_WRITE. rewrite Hd. kernel_simpl. rewrite Z.eqb_refl. kernel_simpl.
          rewrite (proj2 (Z.eqb_neq _ _) Hne). kernel_simpl. rewrite Hsrc. reflexivity. }
        split; reflexivity.
  - assert (run (sys_debug_transfer_handle proc src_handle) k
            = (st, record (EvGetDispatcher proc READ_WRITE st) k)) as ->.
    { unfold sys_debug_transfer_handle. sys_unfold. kernel_simpl.
      fold READ_WRITE. rewrite Hd. kernel_simpl.
      rewrite (proj2 (Z.eqb_neq _ _) Hst). reflexivity. }
    split; [reflexivity|]. intros p [= -> _]. contradiction.
Qed.

End TransferMore.

(** Scenario 2 of the specification: handle 11 of the caller, transferred to
    process 2 through handle 10, gets the value 1 there and is gone from the
    caller's table. *)
Lemma transfer_handle_moves_witness :
  let r := run (sys_debug_transfer_handle 10 11) demo_kernel in
  r.1 = 1
  ∧ p_handles (k_processes r.2 2) !! 1 = Some (MkHandle (ProcessDisp 2) MX_RIGHT_WRITE)
  ∧ p_handles (k_processes r.2 1) !! 11 = None.
Proof.
  intros r.
  destruct (transfer_handle_moves demo_kernel 10 11 2 (MkHandle (ProcessDisp 2) MX_RIGHT_WRITE)
              eq_refl ltac:(discriminate) eq_refl) as (_ & _ & Htarget & Hsource & _).
  split; [reflexivity|]. split; [exact Htarget|exact Hsource].
Defined.

(** ** What the memory syscalls leave alone *)

Section Frames.

Context {V : Type} `{VmObject V}.

Implicit Types (k : Kernel V).

Ltac split_paths :=
  repeat first
    [ progress kernel_simpl
    | match goal with
      | |- context [match ?x with _ => _ end] =>
          lazymatch x with
          | context [match _ with _ => _ end] => fail
          | _ => destruct x eqn:?
          end
      end ].

(** X6. Whatever the arguments, [sys_process_read_memory] changes no handle
    table, no address space, no thread, neither the console nor the trace
    log, and of the calls that store something it makes two at most: the
    transfer from the storage object to the caller's buffer, with the length
    the caller gave, and the copy of eight bytes to the actual-length
    out-parameter.  It never writes to a storage object, moves no handle and
    allocates nothing. *)
Theorem read_memory_changes_user_memory_only k proc vaddr buffer len actual :
  let r := run (sys_process_read_memory proc vaddr buffer len actual) k in
  k_processes r.2 = k_processes k
  ∧ k_threads r.2 = k_threads k ∧ k_console r.2 = k_console k
  ∧ k_ktrace r.2 = k_ktrace k
  ∧ (∀ e, e ∈ k_log r.2 →
          e ∈ k_log k
          ∨ match e with
            | EvGetDispatcher _ _ _ | EvAspace _ | EvFindRegion _ _ | EvRegionVmo _ _ => True
            | EvReadUser _ buffer' _ len' _ _ => buffer' = buffer ∧ len' = len
            | EvCopyToUser ptr data _ => ptr = actual ∧ length data = 8%nat
            | _ => False
            end).
Proof.
  intros r. subst r. unfold sys_process_read_memory. sys_unfold.
  split_paths; (split; [|split; [|split; [|split]]]); try reflexivity;
    intros e He; rewrite ?elem_of_app, ?elem_of_cons, ?elem_of_nil in He;
    intuition (subst; auto).
Qed.

(** X7. Whatever the arguments, [sys_process_write_memory] changes no handle
    table, no address space, no thread, neither the console nor the trace
    log, and of the calls that store something it makes two at most: the
    transfer from the caller's buffer to the storage object, with the length
    the caller gave, and the copy of eight bytes to the actual-length
    out-parameter.  It never reads a storage object, moves no handle and
    allocates nothing. *)
Theorem write_memory_frame k proc vaddr buffer len actual :
  let r := run (sys_process_write_memory proc vaddr buffer len actual) k in
  k_processes r.2 = k_processes k
  ∧ k_threads r.2 = k_threads k ∧ k_console r.2 = k_console k
  ∧ k_ktrace r.2 = k_ktrace k
  ∧ (∀ e, e ∈ k_log r.2 →
          e ∈ k_log k
          ∨ match e with
            | EvGetDispatcher _ _ _ | EvAspace _ | EvFindRegion _ _ | EvRegionVmo _ _ => True
            | EvWriteUser _ buffer' _ len' _ _ => buffer' = buffer ∧ len' = len
            | EvCopyToUser ptr data _ => ptr = actual ∧ length data = 8%nat
            | _ => False
            end).
Proof.
  intros r. subst r. unfold sys_process_write_memory. sys_unfold.
  split_paths; (split; [|split; [|split; [|split]]]); try reflexivity;
    intros e He; rewrite ?elem_of_app, ?elem_of_cons, ?elem_of_nil in He;
    intuition (subst; auto).
Qed.

(** X8. A handle and an address that [sys_process_read_memory] accepts are
    accepted by [sys_process_write_memory]: when the read returns NO_ERROR, a
    write at the same address through the same handle, with a non-null
    buffer and a length in range, reaches the storage object. *)
Theorem read_accepted_then_write_reaches_object k proc vaddr buffer len actual
    buffer' len' actual' :
  (run (sys_process_read_memory proc vaddr buffer len actual) k).1 = NO_ERROR →
  buffer' ≠ 0 → len' ≠ 0 → len' ≤ 64 * 1024 * 1024 →
  ∃ vmo offset st n,
    EvWriteUser vmo buffer' offset len' st n
    ∈ k_log (run (sys_process_write_memory proc vaddr buffer' len' actual') k).2.
Proof.
  intros Hread Hbuf Hlen0 Hlen.
  destruct (Z.eq_dec buffer 0) as [Hb|Hb];
    [rewrite read_memory_bad_args in Hread by auto; discriminate|].
  destruct (Z.eq_dec len 0) as [Hl|Hl];
    [rewrite read_memory_bad_args in Hread by auto; discriminate|].
  destruct (Z_lt_le_dec kMaxDebugReadBlock len) as [Hm|Hm];
    [rewrite read_memory_bad_args in Hread by auto; discriminate|].
  destruct (get_dispatcher k (k_current k) TProcess proc READ_WRITE) as [st process] eqn:Hd.
  destruct (Z.eq_dec st NO_ERROR) as [->|Hst];
    [|rewrite (read_memory_denied _ _ _ _ _ _ _ _ Hb Hl Hm Hd Hst) in Hread; contradiction].
  destruct (p_aspace (k_processes k process)) as [a|] eqn:Ha;
    [|rewrite (read_memory_no_aspace _ _ _ _ _ _ _ Hb Hl Hm Hd Ha) in Hread; discriminate].
  destruct (FindRegion a vaddr) as [region|] eqn:Hr;
    [|rewrite (read_memory_no_region _ _ _ _ _ _ _ _ Hb Hl Hm Hd Ha Hr) in Hread;
      discriminate].
  destruct (r_vmo region) as [vmo|] eqn:Hv;
    [|rewrite (read_memory_no_vmo _ _ _ _ _ _ _ _ _ Hb Hl Hm Hd Ha Hr Hv) in Hread;
      discriminate].
  destruct (WriteUser (k_vmos k vmo) (k_umem k) buffer' (object_offset_of vaddr region) len')
    as [[st n] v] eqn:Hw.
  exists vmo, (object_offset_of vaddr region), st, n.
  rewrite (write_memory_transfer k proc vaddr buffer' len' actual' process a region vmo st n v
             Hbuf Hlen0 Hlen (get_dispatcher_weaken _ _ _ _ Hd) Ha Hr Hv Hw).
  unfold finish_transfer.
  destruct (st =? NO_ERROR);
    [destruct (copy_to_user _ actual' (le_bytes 8 n))|]; kernel_simpl;
    rewrite ?elem_of_app, ?elem_of_cons; tauto.
Qed.

End Frames.

Lemma read_accepted_then_write_reaches_object_witness :
  ∃ vmo offset st n,
    EvWriteUser vmo 0x100 offset 4 st n
    ∈ k_log (run (sys_process_write_memory 10 0x1000 0x100 4 0x108) demo_kernel).2.
Proof.
  apply (read_accepted_then_write_reaches_object demo_kernel 10 0x1000 0x110 4 0x118
           0x100 4 0x108).
  - vm_compute. reflexivity.
  - discriminate.
  - discriminate.
  - vm_compute. discriminate.
Defined.

(** ** Bounds of the thread state buffer *)

Section ThreadStateBounds.

Context {V : Type} `{VmObject V}.

Variable MX_MAX_THREAD_STATE_SIZE : Z.
Variable uninitialised : nat → Z.

Implicit Types (k : Kernel V).

Ltac split_paths :=
  repeat first
    [ progress kernel_simpl
    | match goal with
      | |- context [match ?x with _ => _ end] =>
          lazymatch x with
          | context [match _ with _ => _ end] => fail
          | _ => destruct x eqn:?
          end
      end ].


End ThreadStateBounds.

(** ** The resource gate and the console and trace syscalls *)

Ltac other_unfold :=
  cbv beta iota delta
    [run mbind mret OtherSys_bind OtherSys_ret Sys_bind Sys_ret bind ret Return when
     GetCurrent GetDispatcher validate_resource_handle user_copy_to user_copy_from
     alloc_array ktrace_open slot_store run_script trace_read_user trace_control
     thread_WriteState].

Lemma c_str_no_nul (buf rest : list Z) :
  (∀ c, c ∈ buf → c ≠ 0) → c_str (buf ++ 0 :: rest) = buf.
Proof.
  induction buf as [|c buf IH]; intros Hno; cbn; [reflexivity|].
  rewrite (proj2 (Z.eqb_neq _ _) (Hno c (list_elem_of_here _ _))).
  f_equal. apply IH. intros c' Hc'. apply Hno, list_elem_of_further, Hc'.
Qed.

Lemma c_str_is_prefix (buf : list Z) :
  c_str buf `prefix_of` buf ∧ (∀ c, c ∈ c_str buf → c ≠ 0).
Proof.
  induction buf as [|c buf [IHp IHn]]; cbn.
  - split; [reflexivity|]. intros c Hc. apply elem_of_nil in Hc. destruct Hc.
  - destruct (Z.eqb_spec c 0) as [->|Hc].
    + split; [apply prefix_nil|]. intros c Hc. apply elem_of_nil in Hc. destruct Hc.
    + split; [apply prefix_cons, IHp|].
      intros c' [->|Hin]%elem_of_cons; [exact Hc|apply IHn, Hin].
Qed.

Section ResourceGate.

Context {V : Type} `{VmObject V}.

Variable console_run_script : list Z → Kernel V → mx_status_t * Kernel V.
Variable ktrace_read_user : Z → Z → Z → Kernel V → Z * Kernel V.
Variable ktrace_control : Z → Z → option (list Z) → Kernel V → mx_status_t * Kernel V.
Variable getchar : nat → Z.
Variables (KTRACE_ACTION_NEW_PROBE MX_MAX_NAME_LEN : Z).
Variable TAG_PROBE_24 : Z → Z.

Implicit Types (k : Kernel V).

(** X10. Every syscall behind the resource gate returns the status of the
    validation when the handle does not validate, and does nothing else: the
    only event is the lookup of the handle, no character is taken from the
    console, no script is run, the trace subsystem is not called and user
    memory is not touched. *)
Theorem resource_gate_closed k handle st :
  (get_dispatcher k (k_current k) TResource handle 0).1 = st →
  st < 0 →
  let k0 := record (EvGetDispatcher handle 0 st) k in
  (∀ ptr len pos, sys_debug_read getchar handle ptr len pos k = (st, pos, k0))
  ∧ (∀ ptr len, run (sys_debug_send_command console_run_script handle ptr len) k = (st, k0))
  ∧ (∀ ptr off len, run (sys_ktrace_read ktrace_read_user handle ptr off len) k = (st, k0))
  ∧ (∀ action options ptr,
       run (sys_ktrace_control ktrace_control KTRACE_ACTION_NEW_PROBE MX_MAX_NAME_LEN
              handle action options ptr) k = (st, k0))
  ∧ (∀ event_id arg0 arg1,
       run (sys_ktrace_write TAG_PROBE_24 handle event_id arg0 arg1) k = (st, k0)).
Proof.
  intros Hst Hneg k0. subst k0. apply Z.ltb_lt in Hneg.
  repeat split; intros;
    unfold sys_debug_read, sys_debug_send_command, sys_ktrace_read, sys_ktrace_control,
      sys_ktrace_write;
    other_unfold; kernel_simpl;
    destruct (get_dispatcher k (k_current k) TResource handle 0) as [st' res];
    cbn [fst] in Hst; subst st'; kernel_simpl; rewrite Hneg; reflexivity.
Qed.

End ResourceGate.

(** Handle 21 of the caller is a thread, not a resource: every gated syscall
    returns ERR_WRONG_TYPE; the read takes no character. *)
Lemma resource_gate_closed_witness :
  sys_debug_read demo_getchar 21 0x100 4 0 io_kernel
  = (ERR_WRONG_TYPE, O, record (EvGetDispatcher 21 0 ERR_WRONG_TYPE) io_kernel)
  ∧ (run (sys_debug_send_command demo_run_script 21 0x100 2) io_kernel).1 = ERR_WRONG_TYPE.
Proof.
  destruct (resource_gate_closed demo_run_script demo_ktrace_read_user demo_ktrace_control
              demo_getchar 1 32 demo_tag io_kernel 21 ERR_WRONG_TYPE eq_refl eq_refl)
    as (Hread & Hsend & _).
  split.
  - exact (Hread 0x100 4 O).
  - exact (f_equal fst (Hsend 0x100 2)).
Defined.

Lemma resource_handle_valid {V : Type} (k : Kernel V) (handle : Z) :
  0 ≤ (get_dispatcher k (k_current k) TResource handle 0).1 →
  get_dispatcher k (k_current k) TResource handle 0
  = (NO_ERROR, (get_dispatcher k (k_current k) TResource handle 0).2).
Proof.
  unfold get_dispatcher.
  destruct (p_handles (k_processes k (k_current k)) !! handle) as [h|];
    [|cbn; unfold ERR_BAD_HANDLE; lia].
  destruct (DownCastDispatcher TResource (h_dispatcher h));
    [|cbn; unfold ERR_WRONG_TYPE; lia].
  destruct (magenta_rights_check (h_rights h) 0);
    [reflexivity|cbn; unfold ERR_ACCESS_DENIED; lia].
Qed.

Section SendCommand.

Context {V : Type} `{VmObject V}.

Variable console_run_script : list Z → Kernel V → mx_status_t * Kernel V.

Implicit Types (k : Kernel V).

(** X11. With a valid resource handle, [sys_debug_send_command] refuses a command
    of more than 256 bytes before it reads the caller's buffer, and a command
    it cannot copy from the caller: in both cases ERR_INVALID_ARGS is
    returned and the script runner is not called.  (Unlike [sys_debug_write]
    the length is not clamped.) *)
Theorem send_command_rejects k handle ptr len :
  0 ≤ (get_dispatcher k (k_current k) TResource handle 0).1 →
  let r := run (sys_debug_send_command console_run_script handle ptr len) k in
  (256 < len → r = (ERR_INVALID_ARGS, record (EvGetDispatcher handle 0 NO_ERROR) k))
  ∧ (len ≤ 256 → copy_from_user (k_umem k) ptr (Z.to_nat len) = None →
     r = (ERR_INVALID_ARGS,
          records [EvGetDispatcher handle 0 NO_ERROR; EvCopyFromUser ptr len false] k)).
Proof.
  intros Hvalid r. subst r. apply resource_handle_valid in Hvalid.
  unfold sys_debug_send_command. other_unfold. kernel_simpl. rewrite Hvalid.
  kernel_simpl. change (NO_ERROR <? 0) with false. cbv iota. unfold kMaxDebugWriteSize.
  split.
  - intros Hlen. rewrite (proj2 (Z.ltb_lt _ _) Hlen). reflexivity.
  - intros Hlen Hc. rewrite (proj2 (Z.ltb_ge _ _) Hlen). kernel_simpl. rewrite Hc.
    reflexivity.
Qed.

(** X12. With a valid resource handle and a command of at most 256 bytes that can
    be copied from the caller, [sys_debug_send_command] returns what the
    script runner returns for its script.  The script of a command without
    NUL is the command followed by a newline; the script of a command with a
    NUL is the part of the command before its first NUL, without a
    newline. *)
Theorem send_command_runs k handle ptr len buf :
  0 ≤ (get_dispatcher k (k_current k) TResource handle 0).1 →
  len ≤ 256 →
  copy_from_user (k_umem k) ptr (Z.to_nat len) = Some buf →
  let k1 := records [EvGetDispatcher handle 0 NO_ERROR; EvCopyFromUser ptr len true] k in
  (∃ script,
     run (sys_debug_send_command console_run_script handle ptr len) k
     = console_run_script script k1
     ∧ script `prefix_of` buf ++ [10]
     ∧ (∀ c, c ∈ script → c ≠ 0)
     ∧ ((∀ c, c ∈ buf → c ≠ 0) → script = buf ++ [10])
     ∧ (∀ short rest, buf = short ++ 0 :: rest → (∀ c, c ∈ short → c ≠ 0) →
                      script = short)).
Proof.
  intros Hvalid Hlen Hc k1. subst k1. apply resource_handle_valid in Hvalid.
  exists (c_str (buf ++ [10; 0])). split; [|split; [|split; [|split]]].
  - unfold sys_debug_send_command. other_unfold. kernel_simpl. rewrite Hvalid.
    kernel_simpl. change (NO_ERROR <? 0) with false. cbv iota. unfold kMaxDebugWriteSize.
    rewrite (proj2 (Z.ltb_ge _ _) Hlen). kernel_simpl. rewrite Hc. kernel_simpl.
    destruct (console_run_script _ _) as [st k']. reflexivity.
  - destruct (c_str_is_prefix (buf ++ [10; 0])) as [[rest Hp] Hn].
    assert (∀ (s : list Z) r, s ++ r = (buf ++ [10]) ++ [0] → (∀ c, c ∈ s → c ≠ 0) →
                              s `prefix_of` buf ++ [10]) as Hcut.
    { intros s r0 Heq Hs. destruct r0 as [|x r0 _] using rev_ind.
      - exfalso. rewrite app_nil_r in Heq. apply (Hs 0); [|reflexivity].
        rewrite Heq. apply elem_of_app. right. apply list_elem_of_here.
      - rewrite app_assoc in Heq. apply app_inj_tail in Heq as [Heq _].
        exists r0. symmetry. exact Heq. }
    apply (Hcut _ rest); [|exact Hn].
    rewrite <- Hp. rewrite <- app_assoc. reflexivity.
  - apply c_str_is_prefix.
  - intros Hno. change (buf ++ [10; 0]) with (buf ++ [10] ++ [0]).
    rewrite app_assoc. apply c_str_no_nul.
    intros c [Hin|Hin]%elem_of_app; [apply Hno, Hin|].
    apply list_elem_of_singleton in Hin. subst c. discriminate.
  - intros short rest -> Hshort. rewrite <- app_assoc. cbn [app].
    apply c_str_no_nul, Hshort.
Qed.

End SendCommand.

(** Scenario 5 of the specification: a command of 300 bytes is refused. *)
Lemma send_command_rejects_witness :
  run (sys_debug_send_command demo_run_script 30 0x100 300) io_kernel
  = (ERR_INVALID_ARGS, record (EvGetDispatcher 30 0 NO_ERROR) io_kernel).
Proof.
  refine (proj1 (send_command_rejects demo_run_script io_kernel 30 0x100 300 _) _).
  - vm_compute. discriminate.
  - reflexivity.
Defined.

(** The command "ls" is run as "ls" followed by a newline; the three bytes
    "ls" and NUL are run as "ls" with no newline. *)
Lemma send_command_runs_witness :
  (∃ script,
     run (sys_debug_send_command demo_run_script 30 0x100 2) io_kernel
     = demo_run_script script
         (records [EvGetDispatcher 30 0 NO_ERROR; EvCopyFromUser 0x100 2 true] io_kernel)
     ∧ script = [108; 115; 10])
  ∧ (∃ script,
       run (sys_debug_send_command demo_run_script 30 0x100 3) io_kernel
       = demo_run_script script
           (records [EvGetDispatcher 30 0 NO_ERROR; EvCopyFromUser 0x100 3 true] io_kernel)
       ∧ script = [108; 115]).
Proof.
  assert (∀ c : Z, c ∈ [108; 115] → c ≠ 0) as Hls.
  { intros c Hc. rewrite !elem_of_cons, elem_of_nil in Hc.
    destruct Hc as [->|[->|[]]]; discriminate. }
  split.
  - destruct (send_command_runs demo_run_script io_kernel 30 0x100 2 [108; 115])
      as (script & Hrun & _ & _ & Hscript & _).
    + vm_compute. discriminate.
    + vm_compute. discriminate.
    + vm_compute. reflexivity.
    + exists script. split; [exact Hrun|]. apply Hscript, Hls.
  - destruct (send_command_runs demo_run_script io_kernel 30 0x100 3 [108; 115; 0])
      as (script & Hrun & _ & _ & _ & Hscript).
    + vm_compute. discriminate.
    + vm_compute. discriminate.
    + vm_compute. reflexivity.
    + exists script. split; [exact Hrun|]. apply (Hscript [108; 115] []); [reflexivity|].
      exact Hls.
Defined.

Section KtraceControl.

Context {V : Type} `{VmObject V}.

Variable ktrace_control : Z → Z → option (list Z) → Kernel V → mx_status_t * Kernel V.
Variables (KTRACE_ACTION_NEW_PROBE MX_MAX_NAME_LEN : Z).

Implicit Types (k : Kernel V).

(** X13. With a valid resource handle, [sys_ktrace_control] reads the caller's
    memory only for the new-probe action: any other action is passed to the
    trace subsystem with its options and no name, whatever the pointer.  For
    the new-probe action it copies MX_MAX_NAME_LEN - 1 bytes, however short
    the name is: if they cannot all be read the call returns ERR_INVALID_ARGS
    and the trace subsystem is not called; otherwise the name passed on is
    the bytes before the first NUL, and all MX_MAX_NAME_LEN - 1 bytes when
    none of them is NUL. *)
Theorem ktrace_control_name k handle action options ptr :
  0 ≤ (get_dispatcher k (k_current k) TResource handle 0).1 →
  let r := run (sys_ktrace_control ktrace_control KTRACE_ACTION_NEW_PROBE MX_MAX_NAME_LEN
                  handle action options ptr) k in
  let k0 := record (EvGetDispatcher handle 0 NO_ERROR) k in
  (action ≠ KTRACE_ACTION_NEW_PROBE → r = ktrace_control action options None k0)
  ∧ (action = KTRACE_ACTION_NEW_PROBE →
     copy_from_user (k_umem k) ptr (Z.to_nat (MX_MAX_NAME_LEN - 1)) = None →
     r = (ERR_INVALID_ARGS, record (EvCopyFromUser ptr (MX_MAX_NAME_LEN - 1) false) k0))
  ∧ (action = KTRACE_ACTION_NEW_PROBE →
     ∀ bytes, copy_from_user (k_umem k) ptr (Z.to_nat (MX_MAX_NAME_LEN - 1)) = Some bytes →
     ∃ name,
       r = ktrace_control action options (Some name)
             (record (EvCopyFromUser ptr (MX_MAX_NAME_LEN - 1) true) k0)
       ∧ name `prefix_of` bytes
       ∧ (∀ c, c ∈ name → c ≠ 0)
       ∧ (length name ≤ Z.to_nat (MX_MAX_NAME_LEN - 1))%nat
       ∧ (∀ short rest, bytes = short ++ 0 :: rest → (∀ c, c ∈ short → c ≠ 0) →
                        name = short)
       ∧ ((∀ c, c ∈ bytes → c ≠ 0) → name = bytes)).
Proof.
  intros Hvalid r k0. subst r k0. apply resource_handle_valid in Hvalid.
  unfold sys_ktrace_control. other_unfold. kernel_simpl. rewrite Hvalid.
  kernel_simpl. change (NO_ERROR <? 0) with false. cbv iota. split; [|split].
  - intros Hact. rewrite (proj2 (Z.eqb_neq _ _) Hact). kernel_simpl.
    destruct (ktrace_control _ _ _ _) as [st k']. reflexivity.
  - intros -> Hc. rewrite Z.eqb_refl. kernel_simpl. rewrite Hc. reflexivity.
  - intros -> bytes Hc. rewrite Z.eqb_refl. kernel_simpl. rewrite Hc. kernel_simpl.
    exists (c_str (bytes ++ [0])).
    destruct (c_str_is_prefix (bytes ++ [0])) as [[rest Hp] Hn].
    assert (c_str (bytes ++ [0]) `prefix_of` bytes) as Hprefix.
    { destruct rest as [|x rest _] using rev_ind.
      - exfalso. rewrite app_nil_r in Hp. apply (Hn 0); [|reflexivity].
        rewrite <- Hp. apply elem_of_app. right. apply list_elem_of_here.
      - rewrite app_assoc in Hp. apply app_inj_tail in Hp as [Hp _].
        exists rest. exact Hp. }
    split; [destruct (ktrace_control _ _ _ _) as [st k']; reflexivity|].
    split; [exact Hprefix|]. split; [exact Hn|]. split; [|split].
    + apply prefix_length in Hprefix.
      rewrite (copy_from_user_length _ _ _ _ Hc) in Hprefix. exact Hprefix.
    + intros short rest' -> Hshort. rewrite <- app_assoc. cbn [app].
      apply c_str_no_nul, Hshort.
    + intros Hno. apply c_str_no_nul, Hno.
Qed.

End KtraceControl.

(** With names of 32 bytes and new-probe as action 1: "ls" at 0x100 is passed
    on as a name of two bytes; at 0x130 only 20 bytes can be read and the
    call fails, although the bytes there end in a mapped region; action 2
    with a null pointer is passed on with no name; the 31 bytes at 0x103
    hold no NUL and are passed on as a name of 31 bytes. *)
Lemma ktrace_control_name_witness :
  (run (sys_ktrace_control demo_ktrace_control 1 32 30 1 0 0x100) io_kernel).1 = 2
  ∧ (run (sys_ktrace_control demo_ktrace_control 1 32 30 1 0 0x130) io_kernel).1
    = ERR_INVALID_ARGS
  ∧ (run (sys_ktrace_control demo_ktrace_control 1 32 30 2 0 0) io_kernel).1 = -1
  ∧ (run (sys_ktrace_control demo_ktrace_control 1 32 30 1 0 0x103) io_kernel).1 = 31.
Proof.
  assert (0 ≤ (get_dispatcher io_kernel (k_current io_kernel) TResource 30 0).1) as Hvalid
    by (vm_compute; discriminate).
  split; [|split; [|split]]; cycle 3.
  - destruct (proj2 (proj2 (ktrace_control_name demo_ktrace_control 1 32 io_kernel 30 1 0
                              0x103 Hvalid)) eq_refl
                (replicate 31 7) ltac:(vm_compute; reflexivity))
      as (name & Hrun & _ & _ & _ & _ & Hname).
    rewrite Hname in Hrun.
    + exact (f_equal fst Hrun).
    + intros c Hc. apply elem_of_replicate in Hc as [-> _]. discriminate.
  - destruct (proj2 (proj2 (ktrace_control_name demo_ktrace_control 1 32 io_kernel 30 1 0
                              0x100 Hvalid)) eq_refl
                ([108; 115; 0] ++ replicate 28 7) ltac:(vm_compute; reflexivity))
      as (name & Hrun & _ & _ & _ & Hname & _).
    rewrite (Hname [108; 115] (replicate 28 7) eq_refl) in Hrun.
    + exact (f_equal fst Hrun).
    + intros c Hc. rewrite !elem_of_cons, elem_of_nil in Hc.
      destruct Hc as [->|[->|[]]]; discriminate.
  - refine (f_equal fst (proj1 (proj2 (ktrace_control_name demo_ktrace_control 1 32 io_kernel
                                         30 1 0 0x130 Hvalid)) eq_refl _)).
    vm_compute. reflexivity.
  - refine (f_equal fst (proj1 (ktrace_control_name demo_ktrace_control 1 32 io_kernel
                                  30 2 0 0 Hvalid) _)).
    discriminate.
Defined.

(** ** Writing the state of a thread *)

Lemma get_dispatcher_status {V : Type} (k : Kernel V) (up : Z) (ty : DispatcherType)
    (handle rights : Z) :
  (get_dispatcher k up ty handle rights).1 = NO_ERROR
  ∨ (get_dispatcher k up ty handle rights).1 < 0.
Proof.
  unfold get_dispatcher.
  destruct (p_handles (k_processes k up) !! handle) as [h|]; [|right; reflexivity].
  destruct (DownCastDispatcher ty (h_dispatcher h)); [|right; reflexivity].
  destruct (magenta_rights_check (h_rights h) rights); [left|right]; reflexivity.
Qed.

Section ThreadWrite.

Context {V : Type} `{VmObject V}.

Variable WriteState : UserThread → Z → list Z → Z → bool → mx_status_t * UserThread.
Variable MX_MAX_THREAD_STATE_SIZE : Z.

Implicit Types (k : Kernel V).

(** X14. [sys_thread_write_state] with a handle that carries WRITE, a length
    within MX_MAX_THREAD_STATE_SIZE, a buffer that can be allocated and bytes
    that can be copied from the caller: the state writer is called with
    exactly these bytes and never as privileged; its status is returned and
    the thread it leaves replaces the thread, and no other. *)
Theorem thread_write_state_writes k handle state_kind _buffer_ptr buffer_len thread bytes :
  get_dispatcher k (k_current k) TThread handle MX_RIGHT_WRITE = (NO_ERROR, thread) →
  buffer_len ≤ MX_MAX_THREAD_STATE_SIZE →
  buffer_len ≤ k_heap k →
  copy_from_user (k_umem k) _buffer_ptr (Z.to_nat buffer_len) = Some bytes →
  let r := run (sys_thread_write_state WriteState MX_MAX_THREAD_STATE_SIZE handle state_kind
                  _buffer_ptr buffer_len) k in
  let w := WriteState (k_threads k thread) state_kind bytes buffer_len false in
  r.1 = w.1
  ∧ k_threads r.2 thread = w.2
  ∧ (∀ j, j ≠ thread → k_threads r.2 j = k_threads k j)
  ∧ k_umem r.2 = k_umem k.
Proof.
  intros Hd Hmax Hheap Hc r w. subst r w.
  unfold sys_thread_write_state, kMaxThreadStateSize. other_unfold. kernel_simpl.
  rewrite Hd. kernel_simpl. rewrite Z.eqb_refl. kernel_simpl.
  rewrite (proj2 (Z.ltb_ge _ _) Hmax). kernel_simpl.
  rewrite (proj2 (Z.leb_le _ _) Hheap). kernel_simpl. rewrite Hc. kernel_simpl.
  destruct (WriteState (k_threads k thread) state_kind bytes buffer_len false) as [st t'].
  cbn [fst snd set_threads k_threads k_umem].
  split; [reflexivity|]. split; [apply update_same|]. split; [|reflexivity].
  intros j Hj. apply update_other, Hj.
Qed.

(** X15. Whatever the arguments, [sys_thread_write_state] never writes user
    memory and changes no handle table or storage object; and it leaves every
    thread as it was and returns an error when the length exceeds
    MX_MAX_THREAD_STATE_SIZE, when the handle does not resolve to a thread
    with the WRITE right, or when the bytes cannot be copied from the
    caller. *)
Theorem thread_write_state_guarded k handle state_kind _buffer_ptr buffer_len :
  let r := run (sys_thread_write_state WriteState MX_MAX_THREAD_STATE_SIZE handle state_kind
                  _buffer_ptr buffer_len) k in
  k_umem r.2 = k_umem k ∧ k_processes r.2 = k_processes k ∧ k_vmos r.2 = k_vmos k
  ∧ (MX_MAX_THREAD_STATE_SIZE < buffer_len
     ∨ (get_dispatcher k (k_current k) TThread handle MX_RIGHT_WRITE).1 ≠ NO_ERROR
     ∨ copy_from_user (k_umem k) _buffer_ptr (Z.to_nat buffer_len) = None →
     k_threads r.2 = k_threads k ∧ r.1 < 0).
Proof.
  intros r. subst r.
  pose proof (get_dispatcher_status k (k_current k) TThread handle MX_RIGHT_WRITE) as Hst.
  unfold sys_thread_write_state, kMaxThreadStateSize. other_unfold. kernel_simpl.
  destruct (get_dispatcher k (k_current k) TThread handle MX_RIGHT_WRITE) as [st thread].
  cbn [fst] in *. kernel_simpl.
  destruct (Z.eqb_spec st NO_ERROR) as [->|Hbad]; kernel_simpl.
  2: { repeat split; try reflexivity. destruct Hst as [Hst|Hst]; [contradiction|exact Hst]. }
  destruct (Z.ltb_spec MX_MAX_THREAD_STATE_SIZE buffer_len) as [Hbig|Hfit]; kernel_simpl.
  { repeat split; reflexivity. }
  destruct (buffer_len <=? k_heap k); kernel_simpl.
  2: { repeat split; reflexivity. }
  destruct (copy_from_user (k_umem k) _buffer_ptr (Z.to_nat buffer_len)) as [bytes|];
    kernel_simpl.
  2: { repeat split; reflexivity. }
  destruct (WriteState (k_threads k thread) state_kind bytes buffer_len false) as [st t'].
  cbn [fst snd set_threads k_threads k_umem k_processes k_vmos].
  split; [reflexivity|]. split; [reflexivity|]. split; [reflexivity|].
  intros [Hbig|[Hbad|Hcopy]]; [lia|contradiction|discriminate].
Qed.

End ThreadWrite.

(** Through handle 21, which carries WRITE, the four read-only bytes at 0x140
    become the state of thread 5; through handle 22, which carries READ only,
    the call is refused and the thread is as before. *)
Lemma thread_write_state_writes_witness :
  let r := run (sys_thread_write_state demo_WriteState 4096 21 7 0x140 4) io_kernel in
  r.1 = NO_ERROR
  ∧ t_ReadState (k_threads r.2 5) 7 4 = (NO_ERROR, [1; 2; 3; 4], 4).
Proof.
  intros r.
  destruct (thread_write_state_writes demo_WriteState 4096 io_kernel 21 7 0x140 4 5
              [1; 2; 3; 4] eq_refl ltac:(vm_compute; discriminate)
              ltac:(vm_compute; discriminate) ltac:(vm_compute; reflexivity))
    as (Hst & Hthread & _).
  split; [exact Hst|]. fold r in Hthread. rewrite Hthread. reflexivity.
Defined.

Lemma thread_write_state_guarded_witness :
  let r := run (sys_thread_write_state demo_WriteState 4096 22 7 0x140 4) io_kernel in
  k_threads r.2 = k_threads io_kernel ∧ r.1 < 0.
Proof.
  intros r.
  refine (proj2 (proj2 (proj2 (thread_write_state_guarded demo_WriteState 4096 io_kernel
                                 22 7 0x140 4))) _).
  right. left. vm_compute. discriminate.
Defined.

(** ** Reading from the debug console *)

Section DebugRead.

Context {V : Type} `{VmObject V}.

Variable getchar : nat → Z.

Implicit Types (k : Kernel V).






(** X17. The character that ends a read is lost: when the first byte of the
    buffer cannot be written and the console has a character, the call
    returns 0, stores nothing and has taken that character. *)
Theorem debug_read_drops_character k handle ptr len pos :
  0 ≤ (get_dispatcher k (k_current k) TResource handle 0).1 →
  0 < len →
  0 ≤ getchar pos →
  copy_to_user (k_umem k) ptr [stored_char (getchar pos)] = None →
  let res := sys_debug_read getchar handle ptr len pos k in
  res.1.1 = 0 ∧ res.1.2 = S pos ∧ k_umem res.2 = k_umem k.
Proof.
  intros Hvalid Hlen Hchar Hc res. subst res. apply resource_handle_valid in Hvalid.
  unfold sys_debug_read. other_unfold. kernel_simpl. rewrite Hvalid. kernel_simpl.
  change (NO_ERROR <? 0) with false. cbv iota.
  rewrite (proj2 (Z.eqb_neq len 0)) by lia.
  destruct (Z.to_nat len) as [|n] eqn:Hn; [lia|].
  cbn [debug_read_loop]. rewrite (proj2 (Z.ltb_ge _ _) Hchar).
  fold (stored_char (getchar pos)). unfold user_copy_to. kernel_simpl. rewrite Hc.
  change (negb (ERR_INVALID_ARGS =? NO_ERROR)) with true. cbv iota. cbn [fst snd].
  rewrite Z.sub_diag. repeat split.
Qed.

End DebugRead.


(** A read into the read-only bytes at 0x140 returns 0 and has taken the
    first character. *)
Lemma debug_read_drops_character_witness :
  let res := sys_debug_read demo_getchar 30 0x140 4 0 io_kernel in
  res.1.1 = 0 ∧ res.1.2 = 1%nat ∧ k_umem res.2 = k_umem io_kernel.
Proof.
  apply (debug_read_drops_character demo_getchar io_kernel 30 0x140 4 0).
  - vm_compute. discriminate.
  - reflexivity.
  - vm_compute. discriminate.
  - vm_compute. reflexivity.
Defined.

(** ** The trace log only grows *)

Section KtraceAppends.

Context {V : Type} `{VmObject V}.

Variable TAG_PROBE_24 : Z → Z.

Implicit Types (k : Kernel V).

(** X18. Whatever the arguments, [sys_ktrace_write] either returns NO_ERROR, for
    an event id of at most 0x7FF, after it appended one slot with the two
    words to the trace log and used up one free slot, or returns an error
    and leaves the trace log as it was.  It never touches user memory, a
    handle table or a storage object. *)
Theorem ktrace_write_appends k handle event_id arg0 arg1 :
  let r := run (sys_ktrace_write TAG_PROBE_24 handle event_id arg0 arg1) k in
  k_umem r.2 = k_umem k ∧ k_processes r.2 = k_processes k ∧ k_vmos r.2 = k_vmos k
  ∧ ((r.1 = NO_ERROR
      ∧ event_id ≤ 0x7FF
      ∧ kt_slots (k_ktrace r.2)
        = kt_slots (k_ktrace k) ++ [MkSlot (TAG_PROBE_24 event_id) arg0 arg1]
      ∧ S (kt_free (k_ktrace r.2)) = kt_free (k_ktrace k))
     ∨ (r.1 < 0 ∧ k_ktrace r.2 = k_ktrace k)).
Proof.
  intros r. subst r.
  pose proof (get_dispatcher_status k (k_current k) TResource handle 0) as Hst.
  unfold sys_ktrace_write. sys_unfold. unfold ktrace_open, slot_store. kernel_simpl.
  destruct (get_dispatcher k (k_current k) TResource handle 0) as [st res].
  cbn [fst] in Hst. kernel_simpl.
  destruct (Z.ltb_spec st 0) as [Hneg|Hok]; kernel_simpl.
  { repeat split. right. split; [exact Hneg|reflexivity]. }
  destruct (Z.ltb_spec 0x7FF event_id) as [Hbig|Hid]; kernel_simpl.
  { repeat split. right. split; reflexivity. }
  unfold ktrace_open_slot.
  destruct (kt_free (k_ktrace k)) as [|free] eqn:Hfree; kernel_simpl.
  { repeat split. right. split; reflexivity. }
  cbn [kt_slots kt_free]. rewrite alter_last. repeat split. left.
  split; [reflexivity|]. split; [exact Hid|]. split; reflexivity.
Qed.

End KtraceAppends.
